(** * trix: the LLM provider adapters (internal/llm)

  A shallow embedding of the three chat-completion adapters of
  [internal/llm] (Anthropic, OpenAI, Mistral) over the canonical model of
  [client.go], together with the part of Go's [encoding/json] they rely on.

  Conventions.
  - Go [string] is [string] (a byte sequence); Go [int] is [Z].
  - [map[string]interface{}] is a [gmap string value]; a Go map may be
    [nil], so a map-typed field is an [option]: [None] is the nil map.
  - Every slice of the adapters is built with [append] from a nil slice, so
    an empty [list] always stands for a nil slice.
  - A Go call that returns [(T, error)] and may panic is an [outcome T]. *)

From Stdlib Require Import ZArith NArith String Ascii List Bool Lia DecimalString.
From stdpp Require Import gmap strings list fin_maps sorting.

#[local] Set Warnings "-register-all".
#[local] Open Scope Z_scope.

(** ** Text *)

Module Text.

Definition code (c : ascii) : N := N_of_ascii c.
Definition chr (n : N) : ascii := ascii_of_N n.
Definition str1 (n : N) : string := String (chr n) "".

(** The double quote and the backslash, by code. *)
Definition dquote : string := str1 34.
Definition backslash : string := str1 92.

(** [quoted s] is [s] between double quotes, with no escaping. *)
Definition quoted (s : string) : string := dquote +:+ s +:+ dquote.

(** The [%d] verb of [fmt]. *)
Definition itoa (z : Z) : string := NilZero.string_of_int (Z.to_int z).



Definition lower_char (c : ascii) : ascii :=
  let n := code c in
  if ((65 <=? n) && (n <=? 90))%N then chr (n + 32) else c.

Fixpoint lower (s : string) : string :=
  match s with
  | EmptyString => EmptyString
  | String c s' => String (lower_char c) (lower s')
  end.

Fixpoint join (sep : string) (l : list string) : string :=
  match l with
  | [] => ""
  | [x] => x
  | x :: l' => x +:+ sep +:+ join sep l'
  end.

End Text.

Import Text.

(** ** JSON texts: the syntax accepted and produced by [encoding/json] *)

Module Json.

(** The syntax tree of a JSON text.  A number keeps its literal; the members
    of an object keep their order and their duplicates. *)
Inductive t :=
| Null
| Bool (b : bool)
| Num (lit : string)
| Str (s : string)
| Arr (items : list t)
| Obj (members : list (string * t)).

(** *** Scanning *)

Definition is_space (c : ascii) : bool :=
  let n := code c in ((n =? 32) || (n =? 9) || (n =? 10) || (n =? 13))%N.

Definition is_digit (c : ascii) : bool :=
  let n := code c in ((48 <=? n) && (n <=? 57))%N.

Definition is_letter (c : ascii) : bool :=
  let n := code c in
  (((65 <=? n) && (n <=? 90)) || ((97 <=? n) && (n <=? 122)))%N.

(** Characters of a bare word: a number or one of [null], [true], [false]. *)
Definition is_word (c : ascii) : bool :=
  let n := code c in
  is_digit c || is_letter c || ((n =? 43) || (n =? 45) || (n =? 46))%N.

Fixpoint skip_digits (s : string) : string :=
  match s with
  | String c s' => if is_digit c then skip_digits s' else s
  | EmptyString => s
  end.

(** One or more digits, then [k] on what follows. *)
Definition digits1 (k : string → bool) (s : string) : bool :=
  match s with
  | String c s' => is_digit c && k (skip_digits s')
  | EmptyString => false
  end.

Definition at_end (s : string) : bool :=
  match s with EmptyString => true | _ => false end.

Definition exponent (s : string) : bool :=
  match s with
  | EmptyString => true
  | String c s' =>
      if ((code c =? 101) || (code c =? 69))%N then
        match s' with
        | String d s'' =>
            if ((code d =? 43) || (code d =? 45))%N
            then digits1 at_end s'' else digits1 at_end s'
        | EmptyString => false
        end
      else false
  end.

Definition fraction (s : string) : bool :=
  match s with
  | String c s' =>
      if (code c =? 46)%N then digits1 exponent s' else exponent s
  | EmptyString => true
  end.

Definition unsigned_number (s : string) : bool :=
  match s with
  | String c s' =>
      if (code c =? 48)%N then fraction s'
      else is_digit c && fraction (skip_digits s')
  | EmptyString => false
  end.

(** The number grammar of RFC 8259. *)
Definition valid_number (s : string) : bool :=
  match s with
  | String c s' => if (code c =? 45)%N then unsigned_number s' else unsigned_number s
  | EmptyString => false
  end.

Definition hex_digit (c : ascii) : option N :=
  let n := code c in
  if ((48 <=? n) && (n <=? 57))%N then Some (n - 48)%N
  else if ((97 <=? n) && (n <=? 102))%N then Some (n - 87)%N
  else if ((65 <=? n) && (n <=? 70))%N then Some (n - 55)%N
  else None.

Definition hex4 (a b c d : ascii) : option N :=
  match hex_digit a, hex_digit b, hex_digit c, hex_digit d with
  | Some x, Some y, Some z, Some w => Some (((x * 16 + y) * 16 + z) * 16 + w)%N
  | _, _, _, _ => None
  end.

(** UTF-8 encoding of a code point. *)
Definition utf8 (cp : N) : string :=
  (if cp <? 128 then str1 cp
   else if cp <? 2048 then
     str1 (192 + cp / 64) +:+ str1 (128 + cp mod 64)
   else if cp <? 65536 then
     str1 (224 + cp / 4096) +:+ str1 (128 + (cp / 64) mod 64)
     +:+ str1 (128 + cp mod 64)
   else
     str1 (240 + cp / 262144) +:+ str1 (128 + (cp / 4096) mod 64)
     +:+ str1 (128 + (cp / 64) mod 64) +:+ str1 (128 + cp mod 64))%N.

Definition replacement : N := 65533.
Definition is_surrogate (cp : N) : bool := ((55296 <=? cp) && (cp <? 57344))%N.

(** [utf16.DecodeRune]: a high and a low surrogate make one code point. *)
Definition surrogate_pair (hi lo : N) : option N :=
  if ((55296 <=? hi) && (hi <? 56320) && (56320 <=? lo) && (lo <? 57344))%N
  then Some (65536 + (hi - 55296) * 1024 + (lo - 56320))%N
  else None.

Definition simple_escape (c : ascii) : option N :=
  let n := code c in
  (if (n =? 34) || (n =? 92) || (n =? 47) then Some n
   else if n =? 98 then Some 8
   else if n =? 102 then Some 12
   else if n =? 110 then Some 10
   else if n =? 114 then Some 13
   else if n =? 116 then Some 9
   else None)%N.

(** The text between the quotes of a string literal, decoded: escapes are
    replaced, control characters are refused.  Bytes above 127 are kept as
    they are. *)
Fixpoint unquote (s : string) : option string :=
  match s with
  | EmptyString => Some EmptyString
  | String c r =>
      if (code c =? 92)%N then
        match r with
        | String e r1 =>
            if (code e =? 117)%N then
              match r1 with
              | String h1 (String h2 (String h3 (String h4 r2))) =>
                  match hex4 h1 h2 h3 h4 with
                  | None => None
                  | Some cp =>
                      if is_surrogate cp then
                        match r2 with
                        | String b (String u (String l1 (String l2 (String l3 (String l4 r3))))) =>
                            match (if ((code b =? 92) && (code u =? 117))%N
                                   then hex4 l1 l2 l3 l4 else None) with
                            | Some lo =>
                                match surrogate_pair cp lo with
                                | Some full => String.append (utf8 full) <$> unquote r3
                                | None => String.append (utf8 replacement) <$> unquote r2
                                end
                            | None => String.append (utf8 replacement) <$> unquote r2
                            end
                        | _ => String.append (utf8 replacement) <$> unquote r2
                        end
                      else String.append (utf8 cp) <$> unquote r2
                  end
              | _ => None
              end
            else
              match simple_escape e with
              | Some n => String (chr n) <$> unquote r1
              | None => None
              end
        | EmptyString => None
        end
      else if (code c <? 32)%N then None
      else String c <$> unquote r
  end.

Inductive token :=
| TLBrace | TRBrace | TLBrack | TRBrack | TColon | TComma
| TScalar (v : t).

Definition word_token (w : string) : option token :=
  if String.eqb w "null" then Some (TScalar Null)
  else if String.eqb w "true" then Some (TScalar (Bool true))
  else if String.eqb w "false" then Some (TScalar (Bool false))
  else if valid_number w then Some (TScalar (Num w))
  else None.

Definition punct (c : ascii) : option token :=
  let n := code c in
  (if n =? 123 then Some TLBrace
   else if n =? 125 then Some TRBrace
   else if n =? 91 then Some TLBrack
   else if n =? 93 then Some TRBrack
   else if n =? 58 then Some TColon
   else if n =? 44 then Some TComma
   else None)%N.

(** The scanner reads one character at a time.  Buffers are reversed. *)
Inductive mode :=
| Idle
| InWord (buf : string)
| InString (buf : string) (escaped : bool).

Definition scan_idle (toks : list token) (c : ascii) : option (list token * mode) :=
  if is_space c then Some (toks, Idle)
  else if (code c =? 34)%N then Some (toks, InString "" false)
  else if is_word c then Some (toks, InWord (String c ""))
  else match punct c with
       | Some tk => Some (tk :: toks, Idle)
       | None => None
       end.

Definition scan_char (st : list token * mode) (c : ascii) : option (list token * mode) :=
  let '(toks, m) := st in
  match m with
  | Idle => scan_idle toks c
  | InWord buf =>
      if is_word c then Some (toks, InWord (String c buf))
      else match word_token (String.rev buf) with
           | Some tk => scan_idle (tk :: toks) c
           | None => None
           end
  | InString buf true => Some (toks, InString (String c buf) false)
  | InString buf false =>
      if (code c =? 34)%N then
        match unquote (String.rev buf) with
        | Some s => Some (TScalar (Str s) :: toks, Idle)
        | None => None
        end
      else Some (toks, InString (String c buf) (code c =? 92)%N)
  end.

Fixpoint scan_from (st : list token * mode) (s : string) : option (list token) :=
  match s with
  | String c s' =>
      match scan_char st c with
      | Some st' => scan_from st' s'
      | None => None
      end
  | EmptyString =>
      match st with
      | (toks, Idle) => Some (rev toks)
      | (toks, InWord buf) =>
          match word_token (String.rev buf) with
          | Some tk => Some (rev (tk :: toks))
          | None => None
          end
      | (_, InString _ _) => None
      end
  end.

Definition scan (s : string) : option (list token) := scan_from ([], Idle) s.

(** *** Parsing: a stack of the containers under construction *)

Inductive frame :=
| InArr (acc : list t)
| InObj (acc : list (string * t)) (key : string).

Inductive pstate :=
| PValue (stk : list frame)
| PArrFirst (stk : list frame)
| PArrNext (acc : list t) (stk : list frame)
| PObjFirst (stk : list frame)
| PObjKey (acc : list (string * t)) (stk : list frame)
| PObjColon (acc : list (string * t)) (key : string) (stk : list frame)
| PObjNext (acc : list (string * t)) (stk : list frame)
| PDone (v : t).

Definition complete (v : t) (stk : list frame) : pstate :=
  match stk with
  | [] => PDone v
  | InArr acc :: stk' => PArrNext (v :: acc) stk'
  | InObj acc k :: stk' => PObjNext ((k, v) :: acc) stk'
  end.

Definition start_value (tk : token) (stk : list frame) : option pstate :=
  match tk with
  | TScalar v => Some (complete v stk)
  | TLBrack => Some (PArrFirst stk)
  | TLBrace => Some (PObjFirst stk)
  | _ => None
  end.

Definition parse_token (st : pstate) (tk : token) : option pstate :=
  match st, tk with
  | PValue stk, _ => start_value tk stk
  | PArrFirst stk, TRBrack => Some (complete (Arr []) stk)
  | PArrFirst stk, _ => start_value tk (InArr [] :: stk)
  | PArrNext acc stk, TComma => Some (PValue (InArr acc :: stk))
  | PArrNext acc stk, TRBrack => Some (complete (Arr (rev acc)) stk)
  | PObjFirst stk, TRBrace => Some (complete (Obj []) stk)
  | PObjFirst stk, TScalar (Str k) => Some (PObjColon [] k stk)
  | PObjKey acc stk, TScalar (Str k) => Some (PObjColon acc k stk)
  | PObjColon acc k stk, TColon => Some (PValue (InObj acc k :: stk))
  | PObjNext acc stk, TComma => Some (PObjKey acc stk)
  | PObjNext acc stk, TRBrace => Some (complete (Obj (rev acc)) stk)
  | _, _ => None
  end.

Fixpoint parse_tokens (st : pstate) (tks : list token) : option t :=
  match tks with
  | tk :: tks' =>
      match parse_token st tk with
      | Some st' => parse_tokens st' tks'
      | None => None
      end
  | [] => match st with PDone v => Some v | _ => None end
  end.

(** [parse s] is the syntax tree of [s], or [None] when [s] is not one
    JSON text. *)
Definition parse (s : string) : option t :=
  match scan s with
  | Some tks => parse_tokens (PValue []) tks
  | None => None
  end.

(** *** Printing, as [json.Marshal] does: compact, HTML-safe

    Control characters other than line feed, carriage return and tab are
    written [\u00XX], and so are [<], [>] and [&].  Bytes above 127 are
    copied as they are. *)

Definition hex_char (n : N) : ascii :=
  if (n <? 10)%N then chr (48 + n) else chr (87 + n).

Definition u00 (n : N) : string :=
  backslash +:+ "u00" +:+ String (hex_char (n / 16)) (String (hex_char (n mod 16)) "").

Definition escape_char (c : ascii) : string :=
  let n := code c in
  (if (n =? 34) || (n =? 92) then backslash +:+ String c ""
   else if n =? 10 then backslash +:+ "n"
   else if n =? 13 then backslash +:+ "r"
   else if n =? 9 then backslash +:+ "t"
   else if (n <? 32) || (n =? 60) || (n =? 62) || (n =? 38) then u00 n
   else String c "")%N.

Fixpoint escape (s : string) : string :=
  match s with
  | EmptyString => EmptyString
  | String c s' => escape_char c +:+ escape s'
  end.

Definition print_string (s : string) : string := quoted (escape s).

Fixpoint print (v : t) : string :=
  match v with
  | Null => "null"
  | Bool true => "true"
  | Bool false => "false"
  | Num lit => lit
  | Str s => print_string s
  | Arr items => "[" +:+ join "," (map print items) +:+ "]"
  | Obj members =>
      "{" +:+ join "," (map (λ kv, print_string kv.1 +:+ ":" +:+ print kv.2) members) +:+ "}"
  end.

(** [has_key k v]: the text [v] is an object with a member named [k]. *)
Definition has_key (k : string) (v : t) : bool :=
  match v with
  | Obj members => bool_decide (k ∈ members.*1)
  | _ => false
  end.

End Json.

(** ** Go values and the decoding half of [encoding/json] *)

Module Go.

(** What an [interface{}] holds in the adapters: the JSON-compatible values.
    [VNil] is the nil interface, and also a nil map or a nil slice stored in
    an interface (all three are marshalled as [null]). *)
Inductive value :=
| VNil
| VBool (b : bool)
| VNum (lit : string)
| VStr (s : string)
| VSlice (items : list value)
| VMap (m : gmap string value).

(** A field of type [map[string]interface{}]: [None] is the nil map. *)
Definition gomap : Type := option (gmap string value).

Definition map_value (p : gomap) : value :=
  match p with
  | None => VNil
  | Some m => VMap m
  end.

(** A slice built by [append] from nil, stored in an interface. *)
Definition slice_value (l : list value) : value :=
  match l with
  | [] => VNil
  | _ => VSlice l
  end.

Definition key_le (a b : string * Json.t) : Prop := String.le a.1 b.1.

#[global] Instance key_le_dec : RelDecision key_le :=
  λ a b, String.le_dec a.1 b.1.

(** [json.Marshal] of a value: the keys of a map come out sorted. *)
Fixpoint to_json (v : value) : Json.t :=
  match v with
  | VNil => Json.Null
  | VBool b => Json.Bool b
  | VNum lit => Json.Num lit
  | VStr s => Json.Str s
  | VSlice items => Json.Arr (map to_json items)
  | VMap m => Json.Obj (merge_sort key_le (map_to_list (to_json <$> m)))
  end.

(** Decoding into an [interface{}]: an object becomes a map, in which the last
    of several members of one name wins. *)
Fixpoint of_json (j : Json.t) : value :=
  match j with
  | Json.Null => VNil
  | Json.Bool b => VBool b
  | Json.Num lit => VNum lit
  | Json.Str s => VStr s
  | Json.Arr items => VSlice (map of_json items)
  | Json.Obj members =>
      VMap (list_to_map (rev (map (λ kv, (kv.1, of_json kv.2)) members)))
  end.

(** A decoder stores a JSON value into a Go variable that already holds
    [old]; [None] is a returned error (a type mismatch). *)
Definition decoder (T : Type) : Type := T → Json.t → option T.

Definition dec_string : decoder string := λ old j,
  match j with
  | Json.Null => Some old
  | Json.Str s => Some s
  | _ => None
  end.

Fixpoint digits_value (acc : Z) (s : string) : option Z :=
  match s with
  | EmptyString => Some acc
  | String c s' =>
      if Json.is_digit c
      then digits_value (acc * 10 + (Z.of_N (code c) - 48)) s'
      else None
  end.

(** [strconv.ParseInt(lit, 10, 64)] on the literal of a JSON number. *)
Definition parse_int64 (lit : string) : option Z :=
  let n :=
    match lit with
    | String c s' => if (code c =? 45)%N then Z.opp <$> digits_value 0 s'
                     else digits_value 0 lit
    | EmptyString => None
    end in
  match n with
  | Some z => if (- 2 ^ 63 <=? z) && (z <? 2 ^ 63) then Some z else None
  | None => None
  end.

Definition dec_int : decoder Z := λ old j,
  match j with
  | Json.Null => Some old
  | Json.Num lit => parse_int64 lit
  | _ => None
  end.

Fixpoint dec_items {T : Type} (zero : T) (d : decoder T) (items : list Json.t)
  : option (list T) :=
  match items with
  | [] => Some []
  | j :: items' =>
      match d zero j, dec_items zero d items' with
      | Some x, Some xs => Some (x :: xs)
      | _, _ => None
      end
  end.

Definition dec_slice {T : Type} (zero : T) (d : decoder T) : decoder (list T) :=
  λ old j,
  match j with
  | Json.Null => Some []
  | Json.Arr items => dec_items zero d items
  | _ => None
  end.

Fixpoint dec_members {T : Type} (field : string → decoder T)
  (members : list (string * Json.t)) (acc : T) : option T :=
  match members with
  | [] => Some acc
  | (k, j) :: members' =>
      match field (lower k) acc j with
      | Some acc' => dec_members field members' acc'
      | None => None
      end
  end.

(** Decoding into a struct: each member is stored into the field whose tag
    equals its name up to case; members of other names are skipped. *)
Definition dec_struct {T : Type} (field : string → decoder T) : decoder T :=
  λ old j,
  match j with
  | Json.Null => Some old
  | Json.Obj members => dec_members field members old
  | _ => None
  end.

(** Decoding into a [map[string]interface{}]. *)
Definition dec_map : decoder gomap := λ old j,
  match j with
  | Json.Null => Some None
  | Json.Obj members =>
      Some (Some (list_to_map (rev (map (λ kv, (kv.1, of_json kv.2)) members))
                    ∪ default ∅ old))
  | _ => None
  end.

(** [json.Unmarshal(data, &x)] where [x] holds [zero]. *)
Definition Unmarshal {T : Type} (d : decoder T) (zero : T) (data : string) : option T :=
  match Json.parse data with
  | Some j => d zero j
  | None => None
  end.

(** [var params map[string]interface{}; json.Unmarshal(data, &params)]. *)
Definition Unmarshal_map (data : string) : option gomap :=
  Unmarshal dec_map None data.

(** Errors.  [Errorf] is an error whose text the adapter formats in full;
    [Wrapf text cause] is [fmt.Errorf(text + ": %w", cause)]. *)
Inductive cause :=
| JSONError
| NetError (detail : string)
| SDKError (detail : string).

Inductive error :=
| Errorf (text : string)
| Wrapf (text : string) (c : cause).

Inductive outcome (A : Type) :=
| Ok (a : A)
| Err (e : error)
| Panic (reason : string).

#[global] Arguments Ok {A} a.
#[global] Arguments Err {A} e.
#[global] Arguments Panic {A} reason.

(** The process environment and [os.Getenv]. *)
Definition environ : Type := gmap string string.
Definition Getenv (env : environ) (k : string) : string := default "" (env !! k).

(** [net/http]: what [client.Do] followed by [io.ReadAll] can give. *)
Record http_request := {
  Method : string;
  URL : string;
  Header : list (string * string);
  Body : string
}.

Inductive http_result :=
| DoFailed (detail : string)
| ReadFailed (StatusCode : Z) (detail : string)
| Received (StatusCode : Z) (body : string).

Definition transport : Type := http_request → http_result.

Definition StatusOK : Z := 200.

End Go.

Import Go.

(** ** client.go: the canonical model *)

Definition Role : Type := string.
Definition RoleSystem : Role := "system".
Definition RoleUser : Role := "user".
Definition RoleAssistant : Role := "assistant".
Definition RoleTool : Role := "tool".

Module ToolCall.
Record t := {
  ID : string;
  Name : string;
  Parameters : gomap
}.
End ToolCall.

Module Message.
Record t := {
  Role : Role;
  Content : string;
  ToolCallID : string;
  ToolCalls : list ToolCall.t
}.
End Message.

Module Tool.
Record t := {
  Name : string;
  Description : string;
  Parameters : gomap
}.
End Tool.

Module Usage.
Record t := {
  InputTokens : Z;
  OutputTokens : Z
}.
End Usage.

Module Response.
Record t := {
  Content : string;
  ToolCalls : list ToolCall.t;
  Usage : Usage.t
}.
(** [&Response{}] *)
Definition zero : t :=
  {| Content := ""; ToolCalls := [];
     Usage := {| Usage.InputTokens := 0; Usage.OutputTokens := 0 |} |}.
End Response.

(** The loop that all three adapters run over the tool calls of a vendor
    response: the arguments are unmarshalled into a fresh map, and an error
    replaces the map by [make(map[string]interface{})]. *)
Definition params_or_empty (decoded : option gomap) : gomap :=
  match decoded with
  | Some p => p
  | None => Some ∅
  end.

(** ** mistral.go *)

Module Mistral.

Definition mistralAPIURL : string := "https://api.mistral.ai/v1/chat/completions".

Record MistralClient := {
  apiKey : string;
  model : string
}.

Definition NewMistralClient (env : environ) (model : string) : outcome MistralClient :=
  let apiKey := Getenv env "MISTRAL_API_KEY" in
  if String.eqb apiKey "" then
    Err (Errorf "MISTRAL_API_KEY environment variable not set")
  else
    let model := if String.eqb model "" then "mistral-large-latest" else model in
    Ok {| apiKey := apiKey; model := model |}.

Record mistralFunctionCall := {
  fc_Name : string;
  fc_Arguments : string
}.

Record mistralToolCall := {
  tc_ID : string;
  tc_Type : string;
  tc_Function : mistralFunctionCall
}.

Record mistralMessage := {
  msg_Role : string;
  msg_Content : string;
  msg_ToolCallID : string;
  msg_ToolCalls : list mistralToolCall
}.

Record mistralFunction := {
  fn_Name : string;
  fn_Description : string;
  fn_Parameters : gomap
}.

Record mistralTool := {
  tool_Type : string;
  tool_Function : mistralFunction
}.

(** [Temperature] and [TopP] are [float64]; they hold the literal that
    [json.Marshal] prints, [0] being the zero value. *)
Record mistralRequest := {
  req_Model : string;
  req_Messages : list mistralMessage;
  req_Tools : list mistralTool;
  req_ToolChoice : string;
  req_Temperature : string;
  req_TopP : string;
  req_MaxTokens : Z
}.

Record mistralChoiceMessage := {
  cm_Role : string;
  cm_Content : string;
  cm_ToolCalls : list mistralToolCall
}.

Record mistralChoice := {
  ch_Index : Z;
  ch_Message : mistralChoiceMessage;
  ch_FinishReason : string
}.

Record mistralUsage := {
  PromptTokens : Z;
  CompletionTokens : Z;
  TotalTokens : Z
}.

Record mistralResponse := {
  resp_ID : string;
  resp_Object : string;
  resp_Created : Z;
  resp_Model : string;
  Choices : list mistralChoice;
  Usage : mistralUsage
}.

Record mistralError := {
  err_Object : string;
  err_Message : string;
  err_Type : string;
  err_Code : string
}.

(** *** The struct tags, as [json.Marshal] reads them *)

Definition opt_field (k : string) (omit : bool) (j : Json.t) : list (string * Json.t) :=
  if omit then [] else [(k, j)].

Definition slice_json {T : Type} (f : T → Json.t) (l : list T) : Json.t :=
  match l with
  | [] => Json.Null
  | _ => Json.Arr (map f l)
  end.

Definition mistralToolCall_json (tc : mistralToolCall) : Json.t :=
  Json.Obj [("id", Json.Str (tc_ID tc));
            ("type", Json.Str (tc_Type tc));
            ("function", Json.Obj [("name", Json.Str (fc_Name (tc_Function tc)));
                                   ("arguments", Json.Str (fc_Arguments (tc_Function tc)))])].

Definition mistralMessage_json (m : mistralMessage) : Json.t :=
  Json.Obj ([("role", Json.Str (msg_Role m));
             ("content", Json.Str (msg_Content m))]
            ++ opt_field "tool_call_id" (String.eqb (msg_ToolCallID m) "")
                 (Json.Str (msg_ToolCallID m))
            ++ opt_field "tool_calls" (bool_decide (msg_ToolCalls m = []))
                 (Json.Arr (map mistralToolCall_json (msg_ToolCalls m)))).

Definition mistralTool_json (t : mistralTool) : Json.t :=
  Json.Obj [("type", Json.Str (tool_Type t));
            ("function",
             Json.Obj [("name", Json.Str (fn_Name (tool_Function t)));
                       ("description", Json.Str (fn_Description (tool_Function t)));
                       ("parameters", to_json (map_value (fn_Parameters (tool_Function t))))])].

Definition mistralRequest_json (r : mistralRequest) : Json.t :=
  Json.Obj ([("model", Json.Str (req_Model r));
             ("messages", slice_json mistralMessage_json (req_Messages r))]
            ++ opt_field "tools" (bool_decide (req_Tools r = []))
                 (Json.Arr (map mistralTool_json (req_Tools r)))
            ++ opt_field "tool_choice" (String.eqb (req_ToolChoice r) "")
                 (Json.Str (req_ToolChoice r))
            ++ opt_field "temperature" (String.eqb (req_Temperature r) "0")
                 (Json.Num (req_Temperature r))
            ++ opt_field "top_p" (String.eqb (req_TopP r) "0")
                 (Json.Num (req_TopP r))
            ++ opt_field "max_tokens" (req_MaxTokens r =? 0)
                 (Json.Num (itoa (req_MaxTokens r)))).

(** *** The struct tags, as [json.Unmarshal] reads them *)

Definition zero_FunctionCall : mistralFunctionCall :=
  {| fc_Name := ""; fc_Arguments := "" |}.
Definition zero_ToolCall : mistralToolCall :=
  {| tc_ID := ""; tc_Type := ""; tc_Function := zero_FunctionCall |}.
Definition zero_ChoiceMessage : mistralChoiceMessage :=
  {| cm_Role := ""; cm_Content := ""; cm_ToolCalls := [] |}.
Definition zero_Choice : mistralChoice :=
  {| ch_Index := 0; ch_Message := zero_ChoiceMessage; ch_FinishReason := "" |}.
Definition zero_Usage : mistralUsage :=
  {| PromptTokens := 0; CompletionTokens := 0; TotalTokens := 0 |}.
Definition zero_Response : mistralResponse :=
  {| resp_ID := ""; resp_Object := ""; resp_Created := 0; resp_Model := "";
     Choices := []; Usage := zero_Usage |}.
Definition zero_Error : mistralError :=
  {| err_Object := ""; err_Message := ""; err_Type := ""; err_Code := "" |}.

Definition dec_FunctionCall : decoder mistralFunctionCall :=
  dec_struct (λ k o j,
    if String.eqb k "name" then
      (λ x, {| fc_Name := x; fc_Arguments := fc_Arguments o |}) <$> dec_string (fc_Name o) j
    else if String.eqb k "arguments" then
      (λ x, {| fc_Name := fc_Name o; fc_Arguments := x |}) <$> dec_string (fc_Arguments o) j
    else Some o).

Definition dec_ToolCall : decoder mistralToolCall :=
  dec_struct (λ k o j,
    if String.eqb k "id" then
      (λ x, {| tc_ID := x; tc_Type := tc_Type o; tc_Function := tc_Function o |})
        <$> dec_string (tc_ID o) j
    else if String.eqb k "type" then
      (λ x, {| tc_ID := tc_ID o; tc_Type := x; tc_Function := tc_Function o |})
        <$> dec_string (tc_Type o) j
    else if String.eqb k "function" then
      (λ x, {| tc_ID := tc_ID o; tc_Type := tc_Type o; tc_Function := x |})
        <$> dec_FunctionCall (tc_Function o) j
    else Some o).

Definition dec_ChoiceMessage : decoder mistralChoiceMessage :=
  dec_struct (λ k o j,
    if String.eqb k "role" then
      (λ x, {| cm_Role := x; cm_Content := cm_Content o; cm_ToolCalls := cm_ToolCalls o |})
        <$> dec_string (cm_Role o) j
    else if String.eqb k "content" then
      (λ x, {| cm_Role := cm_Role o; cm_Content := x; cm_ToolCalls := cm_ToolCalls o |})
        <$> dec_string (cm_Content o) j
    else if String.eqb k "tool_calls" then
      (λ x, {| cm_Role := cm_Role o; cm_Content := cm_Content o; cm_ToolCalls := x |})
        <$> dec_slice zero_ToolCall dec_ToolCall (cm_ToolCalls o) j
    else Some o).

Definition dec_Choice : decoder mistralChoice :=
  dec_struct (λ k o j,
    if String.eqb k "index" then
      (λ x, {| ch_Index := x; ch_Message := ch_Message o; ch_FinishReason := ch_FinishReason o |})
        <$> dec_int (ch_Index o) j
    else if String.eqb k "message" then
      (λ x, {| ch_Index := ch_Index o; ch_Message := x; ch_FinishReason := ch_FinishReason o |})
        <$> dec_ChoiceMessage (ch_Message o) j
    else if String.eqb k "finish_reason" then
      (λ x, {| ch_Index := ch_Index o; ch_Message := ch_Message o; ch_FinishReason := x |})
        <$> dec_string (ch_FinishReason o) j
    else Some o).

Definition dec_Usage : decoder mistralUsage :=
  dec_struct (λ k o j,
    if String.eqb k "prompt_tokens" then
      (λ x, {| PromptTokens := x; CompletionTokens := CompletionTokens o;
               TotalTokens := TotalTokens o |}) <$> dec_int (PromptTokens o) j
    else if String.eqb k "completion_tokens" then
      (λ x, {| PromptTokens := PromptTokens o; CompletionTokens := x;
               TotalTokens := TotalTokens o |}) <$> dec_int (CompletionTokens o) j
    else if String.eqb k "total_tokens" then
      (λ x, {| PromptTokens := PromptTokens o; CompletionTokens := CompletionTokens o;
               TotalTokens := x |}) <$> dec_int (TotalTokens o) j
    else Some o).

Definition dec_Response : decoder mistralResponse :=
  dec_struct (λ k o j,
    if String.eqb k "id" then
      (λ x, {| resp_ID := x; resp_Object := resp_Object o; resp_Created := resp_Created o;
               resp_Model := resp_Model o; Choices := Choices o; Usage := Usage o |})
        <$> dec_string (resp_ID o) j
    else if String.eqb k "object" then
      (λ x, {| resp_ID := resp_ID o; resp_Object := x; resp_Created := resp_Created o;
               resp_Model := resp_Model o; Choices := Choices o; Usage := Usage o |})
        <$> dec_string (resp_Object o) j
    else if String.eqb k "created" then
      (λ x, {| resp_ID := resp_ID o; resp_Object := resp_Object o; resp_Created := x;
               resp_Model := resp_Model o; Choices := Choices o; Usage := Usage o |})
        <$> dec_int (resp_Created o) j
    else if String.eqb k "model" then
      (λ x, {| resp_ID := resp_ID o; resp_Object := resp_Object o;
               resp_Created := resp_Created o; resp_Model := x; Choices := Choices o;
               Usage := Usage o |}) <$> dec_string (resp_Model o) j
    else if String.eqb k "choices" then
      (λ x, {| resp_ID := resp_ID o; resp_Object := resp_Object o;
               resp_Created := resp_Created o; resp_Model := resp_Model o; Choices := x;
               Usage := Usage o |}) <$> dec_slice zero_Choice dec_Choice (Choices o) j
    else if String.eqb k "usage" then
      (λ x, {| resp_ID := resp_ID o; resp_Object := resp_Object o;
               resp_Created := resp_Created o; resp_Model := resp_Model o;
               Choices := Choices o; Usage := x |}) <$> dec_Usage (Usage o) j
    else Some o).

Definition dec_Error : decoder mistralError :=
  dec_struct (λ k o j,
    if String.eqb k "object" then
      (λ x, {| err_Object := x; err_Message := err_Message o; err_Type := err_Type o;
               err_Code := err_Code o |}) <$> dec_string (err_Object o) j
    else if String.eqb k "message" then
      (λ x, {| err_Object := err_Object o; err_Message := x; err_Type := err_Type o;
               err_Code := err_Code o |}) <$> dec_string (err_Message o) j
    else if String.eqb k "type" then
      (λ x, {| err_Object := err_Object o; err_Message := err_Message o; err_Type := x;
               err_Code := err_Code o |}) <$> dec_string (err_Type o) j
    else if String.eqb k "code" then
      (λ x, {| err_Object := err_Object o; err_Message := err_Message o;
               err_Type := err_Type o; err_Code := x |}) <$> dec_string (err_Code o) j
    else Some o).

(** *** The adapter *)

Definition convertToolCall (tc : ToolCall.t) : mistralToolCall :=
  let argsJSON := Json.print (to_json (map_value (ToolCall.Parameters tc))) in
  {| tc_ID := ToolCall.ID tc;
     tc_Type := "function";
     tc_Function := {| fc_Name := ToolCall.Name tc; fc_Arguments := argsJSON |} |}.

Definition convertMessage (msg : Message.t) : mistralMessage :=
  let role := Message.Role msg in
  if String.eqb role RoleSystem then
    {| msg_Role := "system"; msg_Content := Message.Content msg;
       msg_ToolCallID := ""; msg_ToolCalls := [] |}
  else if String.eqb role RoleUser then
    {| msg_Role := "user"; msg_Content := Message.Content msg;
       msg_ToolCallID := ""; msg_ToolCalls := [] |}
  else if String.eqb role RoleAssistant then
    {| msg_Role := "assistant"; msg_Content := Message.Content msg;
       msg_ToolCallID := "";
       msg_ToolCalls := map convertToolCall (Message.ToolCalls msg) |}
  else if String.eqb role RoleTool then
    {| msg_Role := "tool"; msg_Content := Message.Content msg;
       msg_ToolCallID := Message.ToolCallID msg; msg_ToolCalls := [] |}
  else
    {| msg_Role := ""; msg_Content := Message.Content msg;
       msg_ToolCallID := ""; msg_ToolCalls := [] |}.

Definition convertMessages (messages : list Message.t) : list mistralMessage :=
  map convertMessage messages.

Definition convertTool (tool : Tool.t) : mistralTool :=
  {| tool_Type := "function";
     tool_Function := {| fn_Name := Tool.Name tool;
                         fn_Description := Tool.Description tool;
                         fn_Parameters := Tool.Parameters tool |} |}.

Definition convertTools (tools : list Tool.t) : list mistralTool :=
  map convertTool tools.

Definition parseToolCall (tc : mistralToolCall) : ToolCall.t :=
  {| ToolCall.ID := tc_ID tc;
     ToolCall.Name := fc_Name (tc_Function tc);
     ToolCall.Parameters :=
       params_or_empty (Unmarshal_map (fc_Arguments (tc_Function tc))) |}.

Definition parseResponse (resp : mistralResponse) : Response.t :=
  match Choices resp with
  | [] => Response.zero
  | choice :: _ =>
      {| Response.Content := cm_Content (ch_Message choice);
         Response.ToolCalls := map parseToolCall (cm_ToolCalls (ch_Message choice));
         Response.Usage :=
           {| Usage.InputTokens := PromptTokens (Usage resp);
              Usage.OutputTokens := CompletionTokens (Usage resp) |} |}
  end.

(** The request that [Chat] builds before it marshals it. *)
Definition chatRequest (c : MistralClient) (messages : list Message.t)
  (tools : list Tool.t) : mistralRequest :=
  let req_tools := if (0 <? length tools)%nat then convertTools tools else [] in
  let req_choice := if (0 <? length tools)%nat then "auto" else "" in
  {| req_Model := model c;
     req_Messages := convertMessages messages;
     req_Tools := req_tools;
     req_ToolChoice := req_choice;
     req_Temperature := "0.7";
     req_TopP := "1";
     req_MaxTokens := 4096 |}.

Definition httpRequest (c : MistralClient) (messages : list Message.t)
  (tools : list Tool.t) : http_request :=
  {| Method := "POST";
     URL := mistralAPIURL;
     Header := [("Content-Type", "application/json");
                ("Authorization", "Bearer " +:+ apiKey c)];
     Body := Json.print (mistralRequest_json (chatRequest c messages tools)) |}.

(** What [Chat] does with the status and the body it has read. *)
Definition handleResponse (StatusCode : Z) (respBody : string) : outcome Response.t :=
  if negb (StatusCode =? StatusOK) then
    match Unmarshal dec_Error zero_Error respBody with
    | Some apiErr =>
        if negb (String.eqb (err_Message apiErr) "") then
          Err (Errorf ("(HTTP Error " +:+ itoa StatusCode +:+ ") " +:+ err_Message apiErr))
        else Err (Errorf ("HTTP " +:+ itoa StatusCode +:+ ": " +:+ respBody))
    | None => Err (Errorf ("HTTP " +:+ itoa StatusCode +:+ ": " +:+ respBody))
    end
  else
    match Unmarshal dec_Response zero_Response respBody with
    | Some mistralResp => Ok (parseResponse mistralResp)
    | None => Err (Wrapf "failed to parse response" JSONError)
    end.

(** [Chat], over the network [net].  The request struct holds JSON-compatible
    values only and the URL is a constant, so [json.Marshal] and
    [http.NewRequestWithContext] do not fail. *)
Definition Chat (net : transport) (c : MistralClient) (messages : list Message.t)
  (tools : list Tool.t) : outcome Response.t :=
  match net (httpRequest c messages tools) with
  | DoFailed detail => Err (Wrapf "request failed" (NetError detail))
  | ReadFailed _ detail => Err (Wrapf "failed to read response" (NetError detail))
  | Received StatusCode respBody => handleResponse StatusCode respBody
  end.

End Mistral.

(** ** The Anthropic adapter *)

Module Anthropic.

Definition anthropicAPI : string := "https://api.anthropic.com/v1/messages".

Record AnthropicClient := {
  apikey : string;
  model : string
}.

Definition NewAnthropicClient (env : environ) (model : string) : outcome AnthropicClient :=
  let apiKey := Getenv env "ANTHROPIC_API_KEY" in
  if String.eqb apiKey "" then
    Err (Errorf "ANTHROPIC_API_KEY environment variable not set")
  else
    let model := if String.eqb model "" then "claude-sonnet-4-20250514" else model in
    Ok {| apikey := apiKey; model := model |}.

Definition textBlock (text : string) : value :=
  VMap {[ "type" := VStr "text"; "text" := VStr text ]}.

Definition toolUseBlock (tc : ToolCall.t) : value :=
  VMap {[ "type" := VStr "tool_use";
          "id" := VStr (ToolCall.ID tc);
          "name" := VStr (ToolCall.Name tc);
          "input" := map_value (ToolCall.Parameters tc) ]}.

Definition toolResultBlock (msg : Message.t) : value :=
  VMap {[ "type" := VStr "tool_result";
          "tool_use_id" := VStr (Message.ToolCallID msg);
          "content" := VStr (Message.Content msg) ]}.

(** The content blocks of an assistant message that carries tool calls. *)
Definition contentBlocks (msg : Message.t) : list value :=
  (if negb (String.eqb (Message.Content msg) "")
   then [textBlock (Message.Content msg)] else [])
  ++ map toolUseBlock (Message.ToolCalls msg).

(** The body of the loop of [buildRequest] for a message that is not a
    system message. *)
Definition anthropicMsg (msg : Message.t) : gmap string value :=
  let m : gmap string value := {[ "role" := VStr (Message.Role msg) ]} in
  if String.eqb (Message.Role msg) RoleTool then
    <["content" := VSlice [toolResultBlock msg]]> (<["role" := VStr "user"]> m)
  else if String.eqb (Message.Role msg) RoleAssistant
          && (0 <? length (Message.ToolCalls msg))%nat then
    <["content" := slice_value (contentBlocks msg)]> m
  else
    <["content" := VStr (Message.Content msg)]> m.

(** One turn of the loop: the state is [(system, convMessages)]. *)
Definition separate (st : string * list value) (msg : Message.t) : string * list value :=
  if String.eqb (Message.Role msg) RoleSystem then (Message.Content msg, st.2)
  else (st.1, st.2 ++ [VMap (anthropicMsg msg)]).

Definition convertTool (tool : Tool.t) : value :=
  VMap {[ "name" := VStr (Tool.Name tool);
          "description" := VStr (Tool.Description tool);
          "input_schema" := map_value (Tool.Parameters tool) ]}.

Definition convertTools (tools : list Tool.t) : list value := map convertTool tools.

Definition buildRequest (c : AnthropicClient) (messages : list Message.t)
  (tools : list Tool.t) : gmap string value :=
  let st := fold_left separate messages ("", []) in
  let req : gmap string value :=
    {[ "model" := VStr (model c);
       "max_tokens" := VNum "4096";
       "messages" := slice_value st.2 ]} in
  let req := if negb (String.eqb st.1 "") then <["system" := VStr st.1]> req else req in
  if (0 <? length tools)%nat
  then <["tools" := slice_value (convertTools tools)]> req
  else req.

Definition httpRequest (c : AnthropicClient) (messages : list Message.t)
  (tools : list Tool.t) : http_request :=
  {| Method := "POST";
     URL := anthropicAPI;
     Header := [("Content-Type", "application/json");
                ("x-api-key", apikey c);
                ("anthropic-version", "2023-06-01")];
     Body := Json.print (to_json (VMap (buildRequest c messages tools))) |}.

(** The anonymous struct of [parseResponseBody].  [Input] is a
    [json.RawMessage]: the bytes of one JSON value, held as the syntax tree
    they spell, or [None] when the member is absent (no bytes). *)
Record contentBlock := {
  Type_ : string;
  Text : string;
  ID : string;
  Name : string;
  Input : option Json.t
}.

Record usage := {
  InputTokens : Z;
  OutputTokens : Z
}.

Record apiResp := {
  Content : list contentBlock;
  StopReason : string;
  Usage : usage
}.

Definition zero_block : contentBlock :=
  {| Type_ := ""; Text := ""; ID := ""; Name := ""; Input := None |}.
Definition zero_usage : usage := {| InputTokens := 0; OutputTokens := 0 |}.
Definition zero_apiResp : apiResp :=
  {| Content := []; StopReason := ""; Usage := zero_usage |}.

(** [RawMessage.UnmarshalJSON] keeps the bytes of the value, [null] too. *)
Definition dec_raw : decoder (option Json.t) := λ _ j, Some (Some j).

Definition dec_block : decoder contentBlock :=
  dec_struct (λ k o j,
    if String.eqb k "type" then
      (λ x, {| Type_ := x; Text := Text o; ID := ID o; Name := Name o; Input := Input o |})
        <$> dec_string (Type_ o) j
    else if String.eqb k "text" then
      (λ x, {| Type_ := Type_ o; Text := x; ID := ID o; Name := Name o; Input := Input o |})
        <$> dec_string (Text o) j
    else if String.eqb k "id" then
      (λ x, {| Type_ := Type_ o; Text := Text o; ID := x; Name := Name o; Input := Input o |})
        <$> dec_string (ID o) j
    else if String.eqb k "name" then
      (λ x, {| Type_ := Type_ o; Text := Text o; ID := ID o; Name := x; Input := Input o |})
        <$> dec_string (Name o) j
    else if String.eqb k "input" then
      (λ x, {| Type_ := Type_ o; Text := Text o; ID := ID o; Name := Name o; Input := x |})
        <$> dec_raw (Input o) j
    else Some o).

Definition dec_usage : decoder usage :=
  dec_struct (λ k o j,
    if String.eqb k "input_tokens" then
      (λ x, {| InputTokens := x; OutputTokens := OutputTokens o |})
        <$> dec_int (InputTokens o) j
    else if String.eqb k "output_tokens" then
      (λ x, {| InputTokens := InputTokens o; OutputTokens := x |})
        <$> dec_int (OutputTokens o) j
    else Some o).

Definition dec_apiResp : decoder apiResp :=
  dec_struct (λ k o j,
    if String.eqb k "content" then
      (λ x, {| Content := x; StopReason := StopReason o; Usage := Usage o |})
        <$> dec_slice zero_block dec_block (Content o) j
    else if String.eqb k "stop_reason" then
      (λ x, {| Content := Content o; StopReason := x; Usage := Usage o |})
        <$> dec_string (StopReason o) j
    else if String.eqb k "usage" then
      (λ x, {| Content := Content o; StopReason := StopReason o; Usage := x |})
        <$> dec_usage (Usage o) j
    else Some o).

(** [json.Unmarshal(block.Input, &params)]: no bytes are a syntax error. *)
Definition Unmarshal_input (raw : option Json.t) : option gomap :=
  match raw with
  | None => None
  | Some j => dec_map None j
  end.

Definition parseToolUse (block : contentBlock) : ToolCall.t :=
  {| ToolCall.ID := ID block;
     ToolCall.Name := Name block;
     ToolCall.Parameters := params_or_empty (Unmarshal_input (Input block)) |}.

(** One turn of the loop over [apiResp.Content]. *)
Definition parseBlock (response : Response.t) (block : contentBlock) : Response.t :=
  if String.eqb (Type_ block) "text" then
    {| Response.Content := Response.Content response +:+ Text block;
       Response.ToolCalls := Response.ToolCalls response;
       Response.Usage := Response.Usage response |}
  else if String.eqb (Type_ block) "tool_use" then
    {| Response.Content := Response.Content response;
       Response.ToolCalls := Response.ToolCalls response ++ [parseToolUse block];
       Response.Usage := Response.Usage response |}
  else response.

Definition parseApiResp (r : apiResp) : Response.t :=
  fold_left parseBlock (Content r)
    {| Response.Content := "";
       Response.ToolCalls := [];
       Response.Usage := {| Usage.InputTokens := InputTokens (Usage r);
                            Usage.OutputTokens := OutputTokens (Usage r) |} |}.

Definition parseResponseBody (body : string) : outcome Response.t :=
  match Unmarshal dec_apiResp zero_apiResp body with
  | None => Err (Wrapf "failed to parse response" JSONError)
  | Some r => Ok (parseApiResp r)
  end.

Definition handleResponse (StatusCode : Z) (body : string) : outcome Response.t :=
  if negb (StatusCode =? StatusOK) then
    Err (Errorf ("API error (status " +:+ itoa StatusCode +:+ "): " +:+ body))
  else parseResponseBody body.

(** [Chat], over the network [net]. *)
Definition Chat (net : transport) (c : AnthropicClient) (messages : list Message.t)
  (tools : list Tool.t) : outcome Response.t :=
  match net (httpRequest c messages tools) with
  | DoFailed detail => Err (Wrapf "request failed" (NetError detail))
  | ReadFailed _ detail => Err (Wrapf "failed to read response" (NetError detail))
  | Received StatusCode body => handleResponse StatusCode body
  end.

End Anthropic.

(** ** The vendor SDK used by openai.go

    [github.com/openai/openai-go] is imported by openai.go and is not part of
    the repository.  Only the shapes that the adapter builds and reads are
    declared here. *)

Module openai.

Record ChatCompletionMessageToolCallFunctionParam := {
  fp_Name : string;
  fp_Arguments : string
}.

Record ChatCompletionMessageToolCallParam := {
  tcp_ID : string;
  tcp_Type : string;
  tcp_Function : ChatCompletionMessageToolCallFunctionParam
}.

Record ChatCompletionAssistantMessageParam := {
  am_Content : option string;
  am_ToolCalls : list ChatCompletionMessageToolCallParam
}.

Inductive ChatCompletionMessageParamUnion :=
| OfSystem (content : string)
| OfUser (content : string)
| OfAssistant (p : ChatCompletionAssistantMessageParam)
| OfTool (content : string) (tool_call_id : string).

Definition SystemMessage (content : string) := OfSystem content.
Definition UserMessage (content : string) := OfUser content.
Definition AssistantMessage (content : string) :=
  OfAssistant {| am_Content := Some content; am_ToolCalls := [] |}.
Definition ToolMessage (content toolCallID : string) := OfTool content toolCallID.

Record FunctionDefinitionParam := {
  fd_Name : string;
  fd_Description : option string;
  fd_Parameters : gomap
}.

Record ChatCompletionToolParam := {
  tp_Type : string;
  tp_Function : FunctionDefinitionParam
}.

Record ChatCompletionNewParams := {
  Messages : list ChatCompletionMessageParamUnion;
  Model : string;
  Tools : list ChatCompletionToolParam;
  ToolChoice : option string
}.

Record ChatCompletionMessageToolCallFunction := {
  fn_Name : string;
  fn_Arguments : string
}.

Record ChatCompletionMessageToolCall := {
  tc_ID : string;
  tc_Function : ChatCompletionMessageToolCallFunction
}.

Record ChatCompletionMessage := {
  msg_Content : string;
  msg_ToolCalls : list ChatCompletionMessageToolCall
}.

Record ChatCompletionChoice := {
  Message : ChatCompletionMessage
}.

Record CompletionUsage := {
  PromptTokens : Z;
  CompletionTokens : Z
}.

Record ChatCompletion := {
  Choices : list ChatCompletionChoice;
  Usage : CompletionUsage
}.

(** Modelled from the spec: the client made by [openai.NewClient()], which
    resolves the credential by the SDK's own environment convention. *)
Record Client := {
  APIKey : option string
}.

Definition NewClient (env : environ) : Client :=
  {| APIKey := env !! "OPENAI_API_KEY" |}.

(** Modelled from the spec: [client.Chat.Completions.New], which is inside
    the SDK.  It performs the one POST of a [Chat] call and decodes the
    answer, and returns a completion or an error. *)
Definition service : Type := Client → ChatCompletionNewParams → cause + ChatCompletion.

(** A member that is left out when its field is unset. *)
Definition some_field (k : string) (o : option string) : list (string * Json.t) :=
  match o with
  | Some s => [(k, Json.Str s)]
  | None => []
  end.

Definition list_field {T : Type} (k : string) (f : T → Json.t) (l : list T)
  : list (string * Json.t) :=
  match l with
  | [] => []
  | _ => [(k, Json.Arr (map f l))]
  end.

Definition toolCall_json (tc : ChatCompletionMessageToolCallParam) : Json.t :=
  Json.Obj [("id", Json.Str (tcp_ID tc));
            ("function", Json.Obj [("arguments", Json.Str (fp_Arguments (tcp_Function tc)));
                                   ("name", Json.Str (fp_Name (tcp_Function tc)))]);
            ("type", Json.Str (tcp_Type tc))].

(** Modelled from the spec: a message of the chat-completions request, with
    [role], [content], [tool_calls] and [tool_call_id], as the SDK serializes
    its parameter union. *)
Definition message_json (m : ChatCompletionMessageParamUnion) : Json.t :=
  match m with
  | OfSystem content => Json.Obj [("content", Json.Str content); ("role", Json.Str "system")]
  | OfUser content => Json.Obj [("content", Json.Str content); ("role", Json.Str "user")]
  | OfAssistant p =>
      Json.Obj (some_field "content" (am_Content p)
                ++ list_field "tool_calls" toolCall_json (am_ToolCalls p)
                ++ [("role", Json.Str "assistant")])
  | OfTool content id =>
      Json.Obj [("content", Json.Str content); ("tool_call_id", Json.Str id);
                ("role", Json.Str "tool")]
  end.

Definition tool_json (t : ChatCompletionToolParam) : Json.t :=
  Json.Obj [("function",
             Json.Obj ([("name", Json.Str (fd_Name (tp_Function t)))]
                       ++ some_field "description" (fd_Description (tp_Function t))
                       ++ match fd_Parameters (tp_Function t) with
                          | Some m => [("parameters", to_json (VMap m))]
                          | None => []
                          end));
            ("type", Json.Str (tp_Type t))].

(** Modelled from the spec: the body of the chat-completions request, with
    [model], [messages], [tools] and [tool_choice], as the SDK serializes its
    parameters; a member is left out when its field is unset. *)
Definition params_json (p : ChatCompletionNewParams) : Json.t :=
  Json.Obj ([("messages", Json.Arr (map message_json (Messages p)));
             ("model", Json.Str (Model p))]
            ++ list_field "tools" tool_json (Tools p)
            ++ some_field "tool_choice" (ToolChoice p)).

End openai.

(** ** openai.go *)

Module OpenAI.

Record OpenAIClient := {
  client : openai.Client
}.

Definition NewOpenAIClient (env : environ) : outcome OpenAIClient :=
  Ok {| client := openai.NewClient env |}.

Definition convertToolCall (tc : ToolCall.t) : openai.ChatCompletionMessageToolCallParam :=
  let argsJSON := Json.print (to_json (map_value (ToolCall.Parameters tc))) in
  {| openai.tcp_ID := ToolCall.ID tc;
     openai.tcp_Type := "function";
     openai.tcp_Function := {| openai.fp_Name := ToolCall.Name tc;
                               openai.fp_Arguments := argsJSON |} |}.

(** The body of the first loop of [Chat]: what one message appends to
    [openaiMessages].  A role outside the four cases appends nothing. *)
Definition convertMessage (msg : Message.t) : list openai.ChatCompletionMessageParamUnion :=
  let role := Message.Role msg in
  if String.eqb role RoleSystem then [openai.SystemMessage (Message.Content msg)]
  else if String.eqb role RoleUser then [openai.UserMessage (Message.Content msg)]
  else if String.eqb role RoleAssistant then
    if (0 <? length (Message.ToolCalls msg))%nat then
      [openai.OfAssistant
         {| openai.am_Content := None;
            openai.am_ToolCalls := map convertToolCall (Message.ToolCalls msg) |}]
    else [openai.AssistantMessage (Message.Content msg)]
  else if String.eqb role RoleTool then
    [openai.ToolMessage (Message.Content msg) (Message.ToolCallID msg)]
  else [].

Definition convertTool (tool : Tool.t) : openai.ChatCompletionToolParam :=
  {| openai.tp_Type := "function";
     openai.tp_Function := {| openai.fd_Name := Tool.Name tool;
                              openai.fd_Description := Some (Tool.Description tool);
                              openai.fd_Parameters := Tool.Parameters tool |} |}.

(** Steps 1 to 3 of [Chat]: the parameters handed to the SDK. *)
Definition chatParams (messages : list Message.t) (tools : list Tool.t)
  : openai.ChatCompletionNewParams :=
  let openaiMessages := concat (map convertMessage messages) in
  let openaiTools := map convertTool tools in
  {| openai.Messages := openaiMessages;
     openai.Model := "gpt-4o";
     openai.Tools := if (0 <? length openaiTools)%nat then openaiTools else [];
     openai.ToolChoice := None |}.

Definition parseToolCall (tc : openai.ChatCompletionMessageToolCall) : ToolCall.t :=
  {| ToolCall.ID := openai.tc_ID tc;
     ToolCall.Name := openai.fn_Name (openai.tc_Function tc);
     ToolCall.Parameters :=
       params_or_empty (Unmarshal_map (openai.fn_Arguments (openai.tc_Function tc))) |}.

(** Step 4 of [Chat].  [resp.Choices[0]] is indexed without a length check. *)
Definition parseCompletion (resp : openai.ChatCompletion) : outcome Response.t :=
  match openai.Choices resp with
  | [] => Panic "runtime error: index out of range [0] with length 0"
  | choice :: _ =>
      Ok {| Response.Content := openai.msg_Content (openai.Message choice);
            Response.ToolCalls :=
              map parseToolCall (openai.msg_ToolCalls (openai.Message choice));
            Response.Usage :=
              {| Usage.InputTokens := openai.PromptTokens (openai.Usage resp);
                 Usage.OutputTokens := openai.CompletionTokens (openai.Usage resp) |} |}
  end.

(** [Chat], over the SDK call [sdk]. *)
Definition Chat (sdk : openai.service) (c : OpenAIClient) (messages : list Message.t)
  (tools : list Tool.t) : outcome Response.t :=
  match sdk (client c) (chatParams messages tools) with
  | inl err => Err (Wrapf "request failed" err)
  | inr resp => parseCompletion resp
  end.

End OpenAI.

(** ** Vocabulary of the properties *)

Module Spec.


(** The same, where a payload that does not decode leaves an empty map. *)
Definition recovers (id name : string) (payload : option gomap) (tc : ToolCall.t) : Prop :=
  ToolCall.ID tc = id ∧ ToolCall.Name tc = name ∧
  ToolCall.Parameters tc = match payload with Some p => p | None => Some ∅ end.

(** The tool calls that a chat-completions answer carries: those of its
    first choice. *)
Definition mistral_calls (r : Mistral.mistralResponse) : list Mistral.mistralToolCall :=
  match Mistral.Choices r with
  | [] => []
  | choice :: _ => Mistral.cm_ToolCalls (Mistral.ch_Message choice)
  end.

Definition mistral_payload (v : Mistral.mistralToolCall) : option gomap :=
  Unmarshal_map (Mistral.fc_Arguments (Mistral.tc_Function v)).

Definition openai_payload (v : openai.ChatCompletionMessageToolCall) : option gomap :=
  Unmarshal_map (openai.fn_Arguments (openai.tc_Function v)).

Definition anthropic_payload (b : Anthropic.contentBlock) : option gomap :=
  Anthropic.Unmarshal_input (Anthropic.Input b).

Definition is_tool_use (b : Anthropic.contentBlock) : bool :=
  String.eqb (Anthropic.Type_ b) "tool_use".

Definition is_system (m : Message.t) : bool := String.eqb (Message.Role m) RoleSystem.



(** The vendors, the environment variable that holds the credential of each,
    and whether the constructor of the adapter returns an error. *)
Inductive vendor := AnthropicStyle | OpenAIStyle | MistralStyle.

Definition credential (v : vendor) : string :=
  match v with
  | AnthropicStyle => "ANTHROPIC_API_KEY"
  | OpenAIStyle => "OPENAI_API_KEY"
  | MistralStyle => "MISTRAL_API_KEY"
  end.

Definition is_error {T : Type} (o : outcome T) : bool :=
  match o with
  | Err _ => true
  | _ => false
  end.

Definition construction_fails (v : vendor) (env : environ) (model : string) : bool :=
  match v with
  | AnthropicStyle => is_error (Anthropic.NewAnthropicClient env model)
  | OpenAIStyle => is_error (OpenAI.NewOpenAIClient env)
  | MistralStyle => is_error (Mistral.NewMistralClient env model)
  end.

(** The request object sets [tool_choice] to ["auto"]. *)
Definition tool_choice_auto (request : Json.t) : Prop :=
  match request with
  | Json.Obj members => ("tool_choice", Json.Str "auto") ∈ members
  | _ => False
  end.

(** The system field that a request would have if the first system message
    were the one sent. *)
Definition first_system (messages : list Message.t) : option value :=
  (λ m, VStr (Message.Content m)) <$> head (filter (λ m, is_system m = true) messages).

(** The content of the last system message, when there is one and its
    content is not empty. *)
Definition last_system (messages : list Message.t) : option value :=
  match last (filter (λ m, is_system m = true) messages) with
  | Some m => if String.eqb (Message.Content m) "" then None
              else Some (VStr (Message.Content m))
  | None => None
  end.

End Spec.

(** ** Concrete wire data *)

Module Wire.

Definition member (k v : string) : string := quoted k +:+ ":" +:+ v.
Definition object (members : list string) : string := "{" +:+ join "," members +:+ "}".
Definition array (items : list string) : string := "[" +:+ join "," items +:+ "]".



(** The argument payload [{"severity":"CRITICAL"}] inside a JSON string. *)
Definition severity_arguments : string :=
  quoted ("{" +:+ backslash +:+ dquote +:+ "severity" +:+ backslash +:+ dquote +:+ ":"
          +:+ backslash +:+ dquote +:+ "CRITICAL" +:+ backslash +:+ dquote +:+ "}").

Definition function_call (id name arguments : string) : string :=
  object [member "id" (quoted id);
          member "type" (quoted "function");
          member "function" (object [member "name" (quoted name);
                                     member "arguments" arguments])].

(** A chat-completions answer with one choice carrying the given calls. *)
Definition completion (calls : list string) : string :=
  object [member "choices"
            (array [object [member "index" "0";
                            member "message"
                              (object [member "role" (quoted "assistant");
                                       member "content" (quoted "");
                                       member "tool_calls" (array calls)]);
                            member "finish_reason" (quoted "tool_calls")]]);
          member "usage" (object [member "prompt_tokens" "11";
                                  member "completion_tokens" "5";
                                  member "total_tokens" "16"])].

Definition one_call : string :=
  completion [function_call "t1" "queryFindings" severity_arguments].

Definition bad_call : string :=
  completion [function_call "t1" "queryFindings" severity_arguments;
              function_call "t2" "x" (quoted "not-json")].

(** An answer without choices that still reports token counts. *)
Definition no_choices : string :=
  object [member "choices" (array []);
          member "usage" (object [member "prompt_tokens" "7";
                                  member "completion_tokens" "9"])].

Definition tool_use (id name input : string) : string :=
  object [member "type" (quoted "tool_use"); member "id" (quoted id);
          member "name" (quoted name); member "input" input].

(** [{"content":[{"type":"tool_use","id":"t2","name":"x","input":"not-json"}]}] *)
Definition scenario3 : string :=
  object [member "content" (array [tool_use "t2" "x" (quoted "not-json")])].


Definition severity_params : gomap := Some {[ "severity" := VStr "CRITICAL" ]}.

Definition call_t1 : ToolCall.t :=
  {| ToolCall.ID := "t1"; ToolCall.Name := "queryFindings";
     ToolCall.Parameters := severity_params |}.

Definition user (content : string) : Message.t :=
  {| Message.Role := RoleUser; Message.Content := content;
     Message.ToolCallID := ""; Message.ToolCalls := [] |}.

Definition system (content : string) : Message.t :=
  {| Message.Role := RoleSystem; Message.Content := content;
     Message.ToolCallID := ""; Message.ToolCalls := [] |}.


Definition queryFindings : Tool.t :=
  {| Tool.Name := "queryFindings"; Tool.Description := "query findings";
     Tool.Parameters := Some {[ "type" := VStr "object" ]} |}.

Definition mistral : Mistral.MistralClient :=
  {| Mistral.apiKey := "key"; Mistral.model := "mistral-large-latest" |}.

Definition anthropic : Anthropic.AnthropicClient :=
  {| Anthropic.apikey := "key"; Anthropic.model := "claude-sonnet-4-20250514" |}.

Definition openai_client : OpenAI.OpenAIClient :=
  {| OpenAI.client := {| openai.APIKey := Some "key" |} |}.

(** A network that answers every request with the same status and body. *)
Definition answering (status : Z) (body : string) : transport :=
  λ _, Received status body.

(** An SDK that answers every call with the same completion. *)
Definition completing (resp : openai.ChatCompletion) : openai.service :=
  λ _ _, inr resp.

Definition sdk_call (id name arguments : string) : openai.ChatCompletionMessageToolCall :=
  {| openai.tc_ID := id;
     openai.tc_Function := {| openai.fn_Name := name; openai.fn_Arguments := arguments |} |}.

Definition sdk_completion (calls : list openai.ChatCompletionMessageToolCall)
  : openai.ChatCompletion :=
  {| openai.Choices :=
       [{| openai.Message := {| openai.msg_Content := ""; openai.msg_ToolCalls := calls |} |}];
     openai.Usage := {| openai.PromptTokens := 11; openai.CompletionTokens := 5 |} |}.

Definition sdk_no_choices : openai.ChatCompletion :=
  {| openai.Choices := [];
     openai.Usage := {| openai.PromptTokens := 7; openai.CompletionTokens := 9 |} |}.

Definition severity_text : string :=
  "{" +:+ quoted "severity" +:+ ":" +:+ quoted "CRITICAL" +:+ "}".

End Wire.

(** ** Vocabulary of the further properties *)

Module Cover.

(** The role of a message is one of the four of client.go. *)
Definition known_role (m : Message.t) : bool :=
  String.eqb (Message.Role m) RoleSystem
  || String.eqb (Message.Role m) RoleUser
  || String.eqb (Message.Role m) RoleAssistant
  || String.eqb (Message.Role m) RoleTool.

Definition is_text (b : Anthropic.contentBlock) : bool :=
  String.eqb (Anthropic.Type_ b) "text".

(** The texts of the text blocks, one after the other. *)
Fixpoint texts (blocks : list Anthropic.contentBlock) : string :=
  match blocks with
  | [] => ""
  | b :: blocks' => if is_text b then Anthropic.Text b +:+ texts blocks' else texts blocks'
  end.

End Cover.

(** ** JSON texts and their tokens *)

Module Syntax.












End Syntax.

(** ** Echoes: what a vendor sends back when it repeats the request *)

Module Echo.


(** The message of a choice that repeats a message of the request. *)
Definition mistral_message (m : Mistral.mistralMessage) : Mistral.mistralChoiceMessage :=
  {| Mistral.cm_Role := Mistral.msg_Role m;
     Mistral.cm_Content := Mistral.msg_Content m;
     Mistral.cm_ToolCalls := Mistral.msg_ToolCalls m |}.

(** The body of a chat-completions answer whose only choice carries the
    message [m], with the given token counts. *)
Definition mistral_body (m : Mistral.mistralMessage) (prompt completion : Z) : string :=
  Json.print
    (Json.Obj [("choices", Json.Arr [Json.Obj [("message", Mistral.mistralMessage_json m)]]);
               ("usage", Json.Obj [("prompt_tokens", Json.Num (itoa prompt));
                                   ("completion_tokens", Json.Num (itoa completion))])]).

End Echo.

(** ** Properties *)

Section Lists.
Context {A B : Type}.

Lemma Forall2_map_l (f : B → A) (P : A → B → Prop) (l : list B) :
  Forall (λ x, P (f x) x) l → Forall2 P (map f l) l.
Proof.
  induction 1 as [|x l Hx _ IH]; simpl; constructor; assumption.
Qed.

Lemma Forall2_map_all (f : B → A) (P : A → B → Prop) (l : list B) :
  (∀ x, P (f x) x) → Forall2 P (map f l) l.
Proof.
  intros H. apply Forall2_map_l. apply Forall_forall. intros x _. apply H.
Qed.

End Lists.

Lemma eqb_false_neq (a b : string) : a ≠ b → String.eqb a b = false.
Proof. intros H. apply String.eqb_neq. exact H. Qed.


(** *** Text *)




(** *** What [Chat] returns for a body that decodes *)

Lemma mistral_chat_ok (net : transport) (c : Mistral.MistralClient)
  (messages : list Message.t) (tools : list Tool.t) (body : string)
  (r : Mistral.mistralResponse) :
  net (Mistral.httpRequest c messages tools) = Received 200 body →
  Unmarshal Mistral.dec_Response Mistral.zero_Response body = Some r →
  Mistral.Chat net c messages tools = Ok (Mistral.parseResponse r).
Proof.
  intros Hnet Hdec. unfold Mistral.Chat. rewrite Hnet.
  unfold Mistral.handleResponse. simpl. rewrite Hdec. reflexivity.
Qed.

Lemma anthropic_chat_ok (net : transport) (c : Anthropic.AnthropicClient)
  (messages : list Message.t) (tools : list Tool.t) (body : string)
  (r : Anthropic.apiResp) :
  net (Anthropic.httpRequest c messages tools) = Received 200 body →
  Unmarshal Anthropic.dec_apiResp Anthropic.zero_apiResp body = Some r →
  Anthropic.Chat net c messages tools = Ok (Anthropic.parseApiResp r).
Proof.
  intros Hnet Hdec. unfold Anthropic.Chat. rewrite Hnet.
  unfold Anthropic.handleResponse, Anthropic.parseResponseBody. simpl.
  rewrite Hdec. reflexivity.
Qed.

Lemma mistral_parse_calls (r : Mistral.mistralResponse) :
  Response.ToolCalls (Mistral.parseResponse r)
  = map Mistral.parseToolCall (Spec.mistral_calls r).
Proof.
  unfold Mistral.parseResponse, Spec.mistral_calls.
  destruct (Mistral.Choices r); reflexivity.
Qed.

Lemma anthropic_fold_calls (blocks : list Anthropic.contentBlock) (init : Response.t) :
  Response.ToolCalls (fold_left Anthropic.parseBlock blocks init)
  = Response.ToolCalls init
    ++ map Anthropic.parseToolUse (filter (λ b, Spec.is_tool_use b = true) blocks).
Proof.
  revert init. induction blocks as [|b blocks IH]; intros init; simpl.
  - rewrite app_nil_r. reflexivity.
  - rewrite IH. unfold Anthropic.parseBlock at 1.
    destruct (String.eqb (Anthropic.Type_ b) "text") eqn:Etext.
    + apply String.eqb_eq in Etext.
      rewrite filter_cons_False; [reflexivity|].
      unfold Spec.is_tool_use. rewrite Etext. discriminate.
    + destruct (String.eqb (Anthropic.Type_ b) "tool_use") eqn:Etool.
      * rewrite filter_cons_True by exact Etool.
        simpl. rewrite <- app_assoc. reflexivity.
      * rewrite filter_cons_False; [reflexivity|].
        unfold Spec.is_tool_use. rewrite Etool. discriminate.
Qed.

Lemma anthropic_parse_calls (r : Anthropic.apiResp) :
  Response.ToolCalls (Anthropic.parseApiResp r)
  = map Anthropic.parseToolUse
      (filter (λ b, Spec.is_tool_use b = true) (Anthropic.Content r)).
Proof. unfold Anthropic.parseApiResp. rewrite anthropic_fold_calls. reflexivity. Qed.

(** Whatever the payload, the parsed call recovers it. *)
Lemma mistral_call_recovers (v : Mistral.mistralToolCall) :
  Spec.recovers (Mistral.tc_ID v) (Mistral.fc_Name (Mistral.tc_Function v))
    (Spec.mistral_payload v) (Mistral.parseToolCall v).
Proof.
  unfold Spec.recovers, Spec.mistral_payload, Mistral.parseToolCall; simpl.
  repeat split.
Qed.

Lemma openai_call_recovers (v : openai.ChatCompletionMessageToolCall) :
  Spec.recovers (openai.tc_ID v) (openai.fn_Name (openai.tc_Function v))
    (Spec.openai_payload v) (OpenAI.parseToolCall v).
Proof.
  unfold Spec.recovers, Spec.openai_payload, OpenAI.parseToolCall; simpl.
  repeat split.
Qed.

Lemma anthropic_call_recovers (b : Anthropic.contentBlock) :
  Spec.recovers (Anthropic.ID b) (Anthropic.Name b)
    (Spec.anthropic_payload b) (Anthropic.parseToolUse b).
Proof.
  unfold Spec.recovers, Spec.anthropic_payload, Anthropic.parseToolUse; simpl.
  repeat split.
Qed.


(** *** Tool calls of a vendor response *)



(** C2. For every adapter, when the vendor answers 200 with a body that
    decodes, [Chat] returns a response and no error, whatever the argument
    payloads of the tool calls are: the response holds one tool call per
    vendor tool call, in order, with its id and name, and a payload that
    fails to decode leaves the empty mapping for that call only.  The OpenAI
    adapter needs the first choice to be there.  For the Anthropic shape the
    payload is the [input] member of the body itself, which fails to decode
    when it is absent or is not an object. *)
Theorem bad_arguments_give_empty_parameters :
  (∀ net c messages tools body r,
     net (Mistral.httpRequest c messages tools) = Received 200 body →
     Unmarshal Mistral.dec_Response Mistral.zero_Response body = Some r →
     ∃ resp, Mistral.Chat net c messages tools = Ok resp
       ∧ Forall2 (λ tc v, Spec.recovers (Mistral.tc_ID v)
                            (Mistral.fc_Name (Mistral.tc_Function v))
                            (Spec.mistral_payload v) tc)
           (Response.ToolCalls resp) (Spec.mistral_calls r))
  ∧ (∀ sdk c messages tools r choice rest,
     sdk (OpenAI.client c) (OpenAI.chatParams messages tools) = inr r →
     openai.Choices r = choice :: rest →
     ∃ resp, OpenAI.Chat sdk c messages tools = Ok resp
       ∧ Forall2 (λ tc v, Spec.recovers (openai.tc_ID v)
                            (openai.fn_Name (openai.tc_Function v))
                            (Spec.openai_payload v) tc)
           (Response.ToolCalls resp)
           (openai.msg_ToolCalls (openai.Message choice)))
  ∧ (∀ net c messages tools body r,
     net (Anthropic.httpRequest c messages tools) = Received 200 body →
     Unmarshal Anthropic.dec_apiResp Anthropic.zero_apiResp body = Some r →
     ∃ resp, Anthropic.Chat net c messages tools = Ok resp
       ∧ Forall2 (λ tc b, Spec.recovers (Anthropic.ID b) (Anthropic.Name b)
                            (Spec.anthropic_payload b) tc)
           (Response.ToolCalls resp)
           (filter (λ b, Spec.is_tool_use b = true) (Anthropic.Content r))).
Proof.
  split; [|split].
  - intros net c messages tools body r Hnet Hdec.
    eexists; split; [eapply mistral_chat_ok; eassumption|].
    rewrite mistral_parse_calls.
    apply Forall2_map_all, mistral_call_recovers.
  - intros sdk c messages tools r choice rest Hsdk Hch.
    unfold OpenAI.Chat, OpenAI.parseCompletion. rewrite Hsdk, Hch.
    eexists; split; [reflexivity|]. simpl.
    apply Forall2_map_all, openai_call_recovers.
  - intros net c messages tools body r Hnet Hdec.
    eexists; split; [eapply anthropic_chat_ok; eassumption|].
    rewrite anthropic_parse_calls.
    apply Forall2_map_all, anthropic_call_recovers.
Qed.

(** A second tool call [t2] whose arguments are the text [not-json], and the
    body [{"content":[{"type":"tool_use","id":"t2","name":"x",
    "input":"not-json"}]}]. *)
Lemma bad_arguments_give_empty_parameters_witness :
  (∃ resp, Mistral.Chat (Wire.answering 200 Wire.bad_call) Wire.mistral
             [Wire.user "hello"] [Wire.queryFindings] = Ok resp
           ∧ Response.ToolCalls resp
             = [Wire.call_t1;
                {| ToolCall.ID := "t2"; ToolCall.Name := "x";
                   ToolCall.Parameters := Some ∅ |}])
  ∧ (∃ resp, OpenAI.Chat
               (Wire.completing
                  (Wire.sdk_completion
                     [Wire.sdk_call "t1" "queryFindings" Wire.severity_text;
                      Wire.sdk_call "t2" "x" "not-json"]))
               Wire.openai_client [Wire.user "hello"] [Wire.queryFindings] = Ok resp
             ∧ Response.ToolCalls resp
               = [Wire.call_t1;
                  {| ToolCall.ID := "t2"; ToolCall.Name := "x";
                     ToolCall.Parameters := Some ∅ |}])
  ∧ (∃ resp, Anthropic.Chat (Wire.answering 200 Wire.scenario3) Wire.anthropic
               [Wire.user "hello"] [Wire.queryFindings] = Ok resp
             ∧ Response.ToolCalls resp
               = [{| ToolCall.ID := "t2"; ToolCall.Name := "x";
                     ToolCall.Parameters := Some ∅ |}]).
Proof.
  destruct bad_arguments_give_empty_parameters as (HM & HO & HA).
  split; [|split].
  - edestruct (HM (Wire.answering 200 Wire.bad_call) Wire.mistral
                 [Wire.user "hello"] [Wire.queryFindings]) as (resp & Hchat & Hall).
    + reflexivity.
    + vm_compute. reflexivity.
    + exists resp. split; [exact Hchat|].
      vm_compute in Hchat. injection Hchat as <-. vm_compute. reflexivity.
  - edestruct (HO (Wire.completing
                     (Wire.sdk_completion
                        [Wire.sdk_call "t1" "queryFindings" Wire.severity_text;
                         Wire.sdk_call "t2" "x" "not-json"]))
                 Wire.openai_client [Wire.user "hello"] [Wire.queryFindings])
      as (resp & Hchat & Hall).
    + reflexivity.
    + reflexivity.
    + exists resp. split; [exact Hchat|].
      vm_compute in Hchat. injection Hchat as <-. vm_compute. reflexivity.
  - edestruct (HA (Wire.answering 200 Wire.scenario3) Wire.anthropic
                 [Wire.user "hello"] [Wire.queryFindings]) as (resp & Hchat & Hall).
    + reflexivity.
    + vm_compute. reflexivity.
    + exists resp. split; [exact Hchat|].
      vm_compute in Hchat. injection Hchat as <-. vm_compute. reflexivity.
Defined.

(** A tool call that an adapter has encoded for the vendor comes back
    unchanged when the vendor echoes it: the arguments string for the
    chat-completions shapes, the structured input for the Anthropic shape. *)
Example encoded_call_comes_back :
  Mistral.parseToolCall (Mistral.convertToolCall Wire.call_t1) = Wire.call_t1
  ∧ (Mistral.fc_Arguments (Mistral.tc_Function (Mistral.convertToolCall Wire.call_t1))
     = Wire.severity_text)
  ∧ OpenAI.parseToolCall
      (Wire.sdk_call "t1" "queryFindings"
         (openai.fp_Arguments (openai.tcp_Function (OpenAI.convertToolCall Wire.call_t1))))
    = Wire.call_t1
  ∧ Anthropic.parseToolUse
      {| Anthropic.Type_ := "tool_use"; Anthropic.Text := "";
         Anthropic.ID := "t1"; Anthropic.Name := "queryFindings";
         Anthropic.Input := Some (to_json (map_value Wire.severity_params)) |}
    = Wire.call_t1.
Proof.
  repeat split; vm_compute; reflexivity.
Qed.

(** *** The Mistral adapter on an answer without choices *)

(** C9. For the Mistral adapter a decoded vendor response with no choice
    gives the zero response: empty content, no tool call, zero usage,
    whatever token counts the vendor body reports. *)
Theorem mistral_no_choices_zero_response :
  ∀ (r : Mistral.mistralResponse),
    Mistral.Choices r = [] →
    Mistral.parseResponse r = Response.zero
    ∧ Response.Content (Mistral.parseResponse r) = ""
    ∧ Response.ToolCalls (Mistral.parseResponse r) = []
    ∧ Response.Usage (Mistral.parseResponse r)
      = {| Usage.InputTokens := 0; Usage.OutputTokens := 0 |}
    ∧ ∀ net c messages tools body,
        net (Mistral.httpRequest c messages tools) = Received 200 body →
        Unmarshal Mistral.dec_Response Mistral.zero_Response body = Some r →
        Mistral.Chat net c messages tools = Ok Response.zero.
Proof.
  intros r Hch.
  assert (Hzero : Mistral.parseResponse r = Response.zero).
  { unfold Mistral.parseResponse. rewrite Hch. reflexivity. }
  rewrite Hzero. repeat split.
  intros net c messages tools body Hnet Hdec.
  rewrite (mistral_chat_ok _ _ _ _ _ _ Hnet Hdec), Hzero. reflexivity.
Qed.

(** A body with no choice that reports 7 prompt tokens and 9 completion
    tokens. *)
Lemma mistral_no_choices_zero_response_witness :
  ∃ r, Unmarshal Mistral.dec_Response Mistral.zero_Response Wire.no_choices = Some r
       ∧ Mistral.PromptTokens (Mistral.Usage r) = 7
       ∧ Mistral.CompletionTokens (Mistral.Usage r) = 9
       ∧ Mistral.parseResponse r = Response.zero
       ∧ Mistral.Chat (Wire.answering 200 Wire.no_choices) Wire.mistral
           [Wire.user "hello"] [] = Ok Response.zero.
Proof.
  eexists. split; [vm_compute; reflexivity|].
  split; [reflexivity|]. split; [reflexivity|].
  match goal with
  | |- Mistral.parseResponse ?r = _ ∧ _ =>
      destruct (mistral_no_choices_zero_response r eq_refl) as (Hz & _ & _ & _ & Hchat)
  end.
  split; [exact Hz|].
  apply Hchat with (body := Wire.no_choices); [reflexivity | vm_compute; reflexivity].
Defined.

(** *** An answer without choices *)

Lemma openai_chat_empty_choices (sdk : openai.service) (c : OpenAI.OpenAIClient)
  (messages : list Message.t) (tools : list Tool.t) (r : openai.ChatCompletion) :
  sdk (OpenAI.client c) (OpenAI.chatParams messages tools) = inr r →
  openai.Choices r = [] →
  OpenAI.Chat sdk c messages tools
  = Panic "runtime error: index out of range [0] with length 0".
Proof.
  intros Hsdk Hch. unfold OpenAI.Chat, OpenAI.parseCompletion.
  rewrite Hsdk, Hch. reflexivity.
Qed.

Lemma mistral_chat_never_panics (net : transport) (c : Mistral.MistralClient)
  (messages : list Message.t) (tools : list Tool.t) :
  (∃ resp, Mistral.Chat net c messages tools = Ok resp)
  ∨ (∃ e, Mistral.Chat net c messages tools = Err e).
Proof.
  unfold Mistral.Chat, Mistral.handleResponse.
  destruct (net _) as [d|s d|s body]; [right; eauto | right; eauto |].
  destruct (negb (s =? StatusOK)).
  - destruct (Unmarshal Mistral.dec_Error _ _) as [e|]; [|right; eauto].
    destruct (negb _); right; eauto.
  - destruct (Unmarshal Mistral.dec_Response _ _); [left | right]; eauto.
Qed.

Lemma anthropic_chat_never_panics (net : transport) (c : Anthropic.AnthropicClient)
  (messages : list Message.t) (tools : list Tool.t) :
  (∃ resp, Anthropic.Chat net c messages tools = Ok resp)
  ∨ (∃ e, Anthropic.Chat net c messages tools = Err e).
Proof.
  unfold Anthropic.Chat, Anthropic.handleResponse, Anthropic.parseResponseBody.
  destruct (net _) as [d|s d|s body]; [right; eauto | right; eauto |].
  destruct (negb (s =? StatusOK)); [right; eauto|].
  destruct (Unmarshal _ _ _); [left | right]; eauto.
Qed.

(** C8. The OpenAI adapter reads [resp.Choices[0]] without looking at the
    length: on a completion that the SDK decoded with an empty list of
    choices, [Chat] neither returns a response nor an error, it panics with
    an index out of range. *)
Theorem openai_no_choices_panics :
  OpenAI.Chat (Wire.completing Wire.sdk_no_choices) Wire.openai_client
    [Wire.user "hello"] []
  = Panic "runtime error: index out of range [0] with length 0".
Proof. reflexivity. Qed.

(** *** An assistant message with text and tool calls *)



(** *** The members of an outbound request *)

(** The members of a marshalled map are its keys. *)
Lemma has_key_to_json (k : string) (m : gmap string value) :
  Json.has_key k (to_json (VMap m)) = bool_decide (is_Some (m !! k)).
Proof.
  change (to_json (VMap m))
    with (Json.Obj (merge_sort key_le (map_to_list (to_json <$> m)))).
  unfold Json.has_key. apply bool_decide_ext.
  rewrite merge_sort_Permutation.
  rewrite list_elem_of_fmap. split.
  - intros ([k' j] & -> & Hin). apply elem_of_map_to_list in Hin.
    rewrite lookup_fmap in Hin. simpl in *.
    destruct (m !! k'); [eauto | discriminate].
  - intros [v Hv]. exists (k, to_json v). split; [reflexivity|].
    apply elem_of_map_to_list. rewrite lookup_fmap, Hv. reflexivity.
Qed.

Lemma anthropic_no_tools (c : Anthropic.AnthropicClient) (messages : list Message.t) :
  Anthropic.buildRequest c messages [] !! "tools" = None.
Proof.
  unfold Anthropic.buildRequest. simpl.
  destruct (negb _); simplify_map_eq; reflexivity.
Qed.

(** C3. For every adapter, the request that [Chat] sends for an empty tool
    sequence has no [tools] member: the field of the request is unset and
    the object that is marshalled into the body has no member of that name. *)
Theorem no_tools_no_tools_member :
  (∀ c messages,
     Body (Mistral.httpRequest c messages [])
     = Json.print (Mistral.mistralRequest_json (Mistral.chatRequest c messages []))
     ∧ Mistral.req_Tools (Mistral.chatRequest c messages []) = []
     ∧ Json.has_key "tools"
         (Mistral.mistralRequest_json (Mistral.chatRequest c messages [])) = false)
  ∧ (∀ messages,
     openai.Tools (OpenAI.chatParams messages []) = []
     ∧ Json.has_key "tools" (openai.params_json (OpenAI.chatParams messages [])) = false)
  ∧ (∀ c messages,
     Body (Anthropic.httpRequest c messages [])
     = Json.print (to_json (VMap (Anthropic.buildRequest c messages [])))
     ∧ Anthropic.buildRequest c messages [] !! "tools" = None
     ∧ Json.has_key "tools" (to_json (VMap (Anthropic.buildRequest c messages []))) = false).
Proof.
  split; [|split].
  - intros c messages. repeat split.
  - intros messages. repeat split.
  - intros c messages. split; [reflexivity|]. split; [apply anthropic_no_tools|].
    rewrite has_key_to_json, anthropic_no_tools.
    apply bool_decide_eq_false. intros [v Hv]. discriminate.
Qed.

(** Scenario 1 on the wire: the bodies sent for [messages = [{user, hello}]]
    and no tool parse back to objects without a [tools] member. *)
Example scenario1_bodies :
  (Json.has_key "tools" <$> Json.parse (Body (Mistral.httpRequest Wire.mistral
                                                [Wire.user "hello"] [])) = Some false)
  ∧ (Json.has_key "tools" <$> Json.parse (Body (Anthropic.httpRequest Wire.anthropic
                                                  [Wire.user "hello"] [])) = Some false)
  ∧ (Json.has_key "tools" <$> Json.parse (Json.print (openai.params_json
                                            (OpenAI.chatParams [Wire.user "hello"] [])))
     = Some false).
Proof. vm_compute. repeat split. Qed.

(** C7, as amended.  With a non-empty tool sequence the Mistral adapter sets
    [tool_choice] to ["auto"] in the request it marshals; the OpenAI adapter
    never sets a tool choice, with or without tools: the parameters it hands
    to the SDK leave the field unset and their wire object has no
    [tool_choice] member. *)
Theorem tool_choice_hint :
  (∀ c messages tools,
     tools ≠ [] →
     Mistral.req_ToolChoice (Mistral.chatRequest c messages tools) = "auto"
     ∧ Spec.tool_choice_auto
         (Mistral.mistralRequest_json (Mistral.chatRequest c messages tools)))
  ∧ (∀ messages tools,
     openai.ToolChoice (OpenAI.chatParams messages tools) = None
     ∧ Json.has_key "tool_choice"
         (openai.params_json (OpenAI.chatParams messages tools)) = false).
Proof.
  split.
  - intros c messages tools Hne. destruct tools as [|t tools]; [congruence|].
    split; [reflexivity|]. simpl. set_solver.
  - intros messages tools. split; [reflexivity|].
    destruct tools; reflexivity.
Qed.

Lemma tool_choice_hint_witness :
  Mistral.req_ToolChoice
    (Mistral.chatRequest Wire.mistral [Wire.user "hello"] [Wire.queryFindings]) = "auto"
  ∧ Spec.tool_choice_auto
      (Mistral.mistralRequest_json
         (Mistral.chatRequest Wire.mistral [Wire.user "hello"] [Wire.queryFindings])).
Proof.
  destruct tool_choice_hint as (HM & _).
  apply (HM Wire.mistral [Wire.user "hello"] [Wire.queryFindings]). discriminate.
Defined.

(** C7, as stated, fails for the OpenAI adapter: with one tool, the request
    has no [tool_choice] set to ["auto"]. *)
Lemma tool_choice_hint_counterexample :
  ¬ Spec.tool_choice_auto
      (openai.params_json (OpenAI.chatParams [Wire.user "hello"] [Wire.queryFindings])).
Proof.
  simpl. intros H. repeat (apply elem_of_cons in H as [H|H]; [discriminate|]).
  inversion H.
Qed.

(** *** Construction *)

(** C4, as amended.  The Anthropic and the Mistral constructors read their
    key from the environment ([ANTHROPIC_API_KEY], [MISTRAL_API_KEY]): when
    it is unset or empty they return a configuration error, otherwise a
    client that holds it, so that a client in hand always has a key.  The
    OpenAI constructor returns a client for every environment and never an
    error. *)
Theorem credential_at_construction :
  ∀ (env : environ) (model : string),
    (Getenv env "ANTHROPIC_API_KEY" = "" →
     Anthropic.NewAnthropicClient env model
     = Err (Errorf "ANTHROPIC_API_KEY environment variable not set"))
    ∧ (Getenv env "ANTHROPIC_API_KEY" ≠ "" →
       ∃ c, Anthropic.NewAnthropicClient env model = Ok c
            ∧ Anthropic.apikey c = Getenv env "ANTHROPIC_API_KEY")
    ∧ (Getenv env "MISTRAL_API_KEY" = "" →
       Mistral.NewMistralClient env model
       = Err (Errorf "MISTRAL_API_KEY environment variable not set"))
    ∧ (Getenv env "MISTRAL_API_KEY" ≠ "" →
       ∃ c, Mistral.NewMistralClient env model = Ok c
            ∧ Mistral.apiKey c = Getenv env "MISTRAL_API_KEY")
    ∧ (∃ c, OpenAI.NewOpenAIClient env = Ok c).
Proof.
  intros env model. repeat split.
  - intros H. unfold Anthropic.NewAnthropicClient. rewrite H. reflexivity.
  - intros H. unfold Anthropic.NewAnthropicClient.
    rewrite (eqb_false_neq _ _ H). eexists. split; reflexivity.
  - intros H. unfold Mistral.NewMistralClient. rewrite H. reflexivity.
  - intros H. unfold Mistral.NewMistralClient.
    rewrite (eqb_false_neq _ _ H). eexists. split; reflexivity.
  - eexists. reflexivity.
Qed.

(** The empty environment, and one that holds both keys. *)
Lemma credential_at_construction_witness :
  (Anthropic.NewAnthropicClient ∅ ""
   = Err (Errorf "ANTHROPIC_API_KEY environment variable not set")
   ∧ Mistral.NewMistralClient ∅ ""
     = Err (Errorf "MISTRAL_API_KEY environment variable not set"))
  ∧ (∃ c, Anthropic.NewAnthropicClient
            {[ "ANTHROPIC_API_KEY" := "a"; "MISTRAL_API_KEY" := "m" ]} "" = Ok c
          ∧ Anthropic.apikey c = "a")
  ∧ (∃ c, Mistral.NewMistralClient
            {[ "ANTHROPIC_API_KEY" := "a"; "MISTRAL_API_KEY" := "m" ]} "" = Ok c
          ∧ Mistral.apiKey c = "m").
Proof.
  destruct (credential_at_construction ∅ "") as (HA & _ & HM & _ & _).
  destruct (credential_at_construction
              {[ "ANTHROPIC_API_KEY" := "a"; "MISTRAL_API_KEY" := "m" ]} "")
    as (_ & HA' & _ & HM' & _).
  split; [split; [apply HA | apply HM]; reflexivity|].
  split; [apply HA' | apply HM']; vm_compute; discriminate.
Defined.

(** C4, as stated, fails for the OpenAI adapter: in the empty environment
    the credential is absent and the constructor returns no error. *)
Lemma credential_at_construction_counterexample :
  Getenv ∅ (Spec.credential Spec.OpenAIStyle) = ""
  ∧ Spec.construction_fails Spec.OpenAIStyle ∅ "" = false
  ∧ OpenAI.NewOpenAIClient ∅ = Ok {| OpenAI.client := {| openai.APIKey := None |} |}.
Proof. repeat split. Qed.

(** *** A status other than 200 *)








(** *** System messages *)

(** The loop of [buildRequest]: the system text is the content of the last
    system message met, the other messages are converted in order. *)
Lemma separate_fold (messages : list Message.t) (system : string) (conv : list value) :
  fold_left Anthropic.separate messages (system, conv)
  = (match last (filter (λ m, Spec.is_system m = true) messages) with
     | Some m => Message.Content m
     | None => system
     end,
     conv ++ map (λ m, VMap (Anthropic.anthropicMsg m))
               (filter (λ m, Spec.is_system m = false) messages)).
Proof.
  revert system conv. induction messages as [|m messages IH]; intros system conv.
  - simpl. rewrite app_nil_r. reflexivity.
  - simpl. unfold Anthropic.separate at 2. fold (Spec.is_system m).
    destruct (Spec.is_system m) eqn:Hsys.
    + rewrite IH.
      rewrite (filter_cons_True (λ m, Spec.is_system m = true) m messages Hsys).
      rewrite (filter_cons_False (λ m, Spec.is_system m = false) m messages)
        by (rewrite Hsys; discriminate).
      rewrite last_cons. simpl.
      destruct (last (filter _ messages)); reflexivity.
    + rewrite IH.
      rewrite (filter_cons_True (λ m, Spec.is_system m = false) m messages Hsys).
      rewrite (filter_cons_False (λ m, Spec.is_system m = true) m messages)
        by (rewrite Hsys; discriminate).
      simpl. rewrite <- app_assoc. reflexivity.
Qed.

Lemma anthropic_role_not_system (m : Message.t) :
  Spec.is_system m = false →
  Anthropic.anthropicMsg m !! "role" ≠ Some (VStr "system").
Proof.
  intros Hsys. unfold Anthropic.anthropicMsg.
  destruct (String.eqb (Message.Role m) RoleTool).
  - simplify_map_eq. discriminate.
  - assert (Hrole : VStr (Message.Role m) ≠ VStr "system").
    { intros [= H]. unfold Spec.is_system in Hsys. rewrite H in Hsys. discriminate. }
    destruct (_ && _); simplify_map_eq; congruence.
Qed.

(** C6, as amended.  The Anthropic adapter sends the messages that are not
    system messages, converted in order, and none of them has the role
    [system]; its top-level [system] member is the content of the last system
    message, and it is left out when there is no system message or when that
    content is empty.  The Mistral and the OpenAI adapters keep a system
    message in place in the message list, with the role [system] and its
    content. *)
Theorem system_message_placement :
  (∀ c messages tools,
     Anthropic.buildRequest c messages tools !! "messages"
     = Some (slice_value (map (λ m, VMap (Anthropic.anthropicMsg m))
                            (filter (λ m, Spec.is_system m = false) messages)))
     ∧ Forall (λ m, Anthropic.anthropicMsg m !! "role" ≠ Some (VStr "system"))
         (filter (λ m, Spec.is_system m = false) messages)
     ∧ Anthropic.buildRequest c messages tools !! "system" = Spec.last_system messages)
  ∧ (∀ (messages : list Message.t) (i : nat) (m : Message.t),
     messages !! i = Some m →
     Spec.is_system m = true →
     Mistral.convertMessages messages !! i
     = Some {| Mistral.msg_Role := "system"; Mistral.msg_Content := Message.Content m;
               Mistral.msg_ToolCallID := ""; Mistral.msg_ToolCalls := [] |})
  ∧ (∀ (before after : list Message.t) (m : Message.t) (tools : list Tool.t),
     Spec.is_system m = true →
     openai.Messages (OpenAI.chatParams (before ++ m :: after) tools)
     = openai.Messages (OpenAI.chatParams before tools)
       ++ openai.OfSystem (Message.Content m)
          :: openai.Messages (OpenAI.chatParams after tools)
     ∧ openai.message_json (openai.OfSystem (Message.Content m))
       = Json.Obj [("content", Json.Str (Message.Content m));
                   ("role", Json.Str "system")]).
Proof.
  split; [|split].
  - intros c messages tools. unfold Anthropic.buildRequest.
    rewrite separate_fold. cbn [fst snd app].
    split; [|split].
    + destruct (negb _), (0 <? length tools)%nat; simplify_map_eq; reflexivity.
    + apply Forall_forall. intros m Hm. apply list_elem_of_filter in Hm as [Hsys _].
      apply anthropic_role_not_system. exact Hsys.
    + unfold Spec.last_system.
      destruct (last (filter _ messages)) as [m|].
      * destruct (String.eqb (Message.Content m) ""), (0 <? length tools)%nat;
          simplify_map_eq; reflexivity.
      * destruct (0 <? length tools)%nat; simplify_map_eq; reflexivity.
  - intros messages i m Hi Hsys. unfold Mistral.convertMessages.
    change (map Mistral.convertMessage messages) with (Mistral.convertMessage <$> messages).
    rewrite list_lookup_fmap, Hi. simpl. f_equal.
    unfold Mistral.convertMessage. unfold Spec.is_system in Hsys. rewrite Hsys. reflexivity.
  - intros before after m tools Hsys. split; [|reflexivity].
    unfold OpenAI.chatParams. cbn [openai.Messages].
    rewrite map_app, concat_app. simpl. f_equal.
    unfold OpenAI.convertMessage at 1. unfold Spec.is_system in Hsys. rewrite Hsys.
    reflexivity.
Qed.

(** Two system messages around a user message. *)
Lemma system_message_placement_witness :
  Mistral.convertMessages [Wire.system "A"; Wire.user "hello"; Wire.system "B"] !! 2%nat
  = Some {| Mistral.msg_Role := "system"; Mistral.msg_Content := "B";
            Mistral.msg_ToolCallID := ""; Mistral.msg_ToolCalls := [] |}
  ∧ openai.Messages (OpenAI.chatParams ([Wire.system "A"] ++ Wire.system "B" :: []) [])
    = [openai.OfSystem "A"; openai.OfSystem "B"]
  ∧ Anthropic.buildRequest Wire.anthropic
      [Wire.system "A"; Wire.user "hello"; Wire.system "B"] [] !! "system"
    = Some (VStr "B").
Proof.
  destruct system_message_placement as (HA & HM & HO).
  split; [|split].
  - apply (HM [Wire.system "A"; Wire.user "hello"; Wire.system "B"] 2%nat (Wire.system "B"));
      reflexivity.
  - destruct (HO [Wire.system "A"] [] (Wire.system "B") []) as (H & _); [reflexivity|].
    exact H.
  - destruct (HA Wire.anthropic [Wire.system "A"; Wire.user "hello"; Wire.system "B"] [])
      as (_ & _ & H).
    rewrite H. reflexivity.
Defined.

(** C6, as stated, fails when there are two system messages: the [system]
    member is the content of the second, not of the first. *)
Lemma system_message_placement_counterexample :
  Spec.first_system [Wire.system "A"; Wire.system "B"] = Some (VStr "A")
  ∧ Anthropic.buildRequest Wire.anthropic [Wire.system "A"; Wire.system "B"] [] !! "system"
    = Some (VStr "B")
  ∧ Anthropic.buildRequest Wire.anthropic [Wire.system "A"; Wire.system "B"] [] !! "system"
    ≠ Spec.first_system [Wire.system "A"; Wire.system "B"].
Proof.
  assert (H1 : Spec.first_system [Wire.system "A"; Wire.system "B"] = Some (VStr "A"))
    by reflexivity.
  assert (H2 : Anthropic.buildRequest Wire.anthropic [Wire.system "A"; Wire.system "B"] []
               !! "system" = Some (VStr "B")) by reflexivity.
  split; [exact H1|]. split; [exact H2|].
  rewrite H1, H2. discriminate.
Qed.

(** ** Further properties of the adapters *)

(** *** Which messages are sent *)

Lemma openai_convert_count (m : Message.t) :
  length (OpenAI.convertMessage m) = if Cover.known_role m then 1%nat else 0%nat.
Proof.
  unfold OpenAI.convertMessage, Cover.known_role.
  destruct (String.eqb (Message.Role m) RoleSystem); [reflexivity|].
  destruct (String.eqb (Message.Role m) RoleUser); [reflexivity|].
  destruct (String.eqb (Message.Role m) RoleAssistant).
  - destruct (0 <? length (Message.ToolCalls m))%nat; reflexivity.
  - destruct (String.eqb (Message.Role m) RoleTool); reflexivity.
Qed.

(** X1. The Mistral adapter sends one message per message, whatever its
    role; the OpenAI adapter sends one message per message whose role is one
    of the four roles and silently drops the others. *)
Theorem outgoing_message_counts :
  ∀ (messages : list Message.t) (tools : list Tool.t) (c : Mistral.MistralClient),
    length (Mistral.req_Messages (Mistral.chatRequest c messages tools)) = length messages
    ∧ length (openai.Messages (OpenAI.chatParams messages tools))
      = length (filter (λ m, Cover.known_role m = true) messages).
Proof.
  intros messages tools c. split.
  - unfold Mistral.chatRequest, Mistral.convertMessages. simpl. apply length_map.
  - unfold OpenAI.chatParams. cbn [openai.Messages].
    induction messages as [|m messages IH]; [reflexivity|].
    simpl. rewrite length_app, IH, openai_convert_count.
    destruct (Cover.known_role m) eqn:Hk.
    + rewrite (filter_cons_True (λ m, Cover.known_role m = true) m messages Hk). reflexivity.
    + rewrite (filter_cons_False (λ m, Cover.known_role m = true) m messages)
        by (rewrite Hk; discriminate).
      reflexivity.
Qed.

(** X2. In a message converted for Mistral the content is the content of the
    message, a tool call id is present only under the role [tool], tool calls
    are present only under the role [assistant], and a role outside the four
    is sent as the empty role. *)
Theorem mistral_message_fields :
  ∀ (m : Message.t),
    Mistral.msg_Content (Mistral.convertMessage m) = Message.Content m
    ∧ (Mistral.msg_ToolCallID (Mistral.convertMessage m) ≠ "" →
       Message.Role m = RoleTool ∧ Mistral.msg_Role (Mistral.convertMessage m) = "tool")
    ∧ (Mistral.msg_ToolCalls (Mistral.convertMessage m) ≠ [] →
       Message.Role m = RoleAssistant
       ∧ Mistral.msg_Role (Mistral.convertMessage m) = "assistant")
    ∧ (Cover.known_role m = true →
       Mistral.msg_Role (Mistral.convertMessage m) = Message.Role m)
    ∧ (Cover.known_role m = false → Mistral.msg_Role (Mistral.convertMessage m) = "").
Proof.
  intros m. unfold Mistral.convertMessage, Cover.known_role.
  destruct (String.eqb (Message.Role m) RoleSystem) eqn:Hs;
    [apply String.eqb_eq in Hs; rewrite Hs; simpl; repeat split; intros; repeat split; congruence|].
  destruct (String.eqb (Message.Role m) RoleUser) eqn:Hu;
    [apply String.eqb_eq in Hu; rewrite Hu; simpl; repeat split; intros; repeat split; congruence|].
  destruct (String.eqb (Message.Role m) RoleAssistant) eqn:Ha;
    [apply String.eqb_eq in Ha; rewrite Ha; simpl; repeat split; intros; repeat split; congruence|].
  destruct (String.eqb (Message.Role m) RoleTool) eqn:Ht;
    [apply String.eqb_eq in Ht; rewrite Ht; simpl; repeat split; intros; repeat split; congruence|].
  simpl. repeat split; intros; repeat split; congruence.
Qed.

Lemma mistral_message_fields_witness :
  Mistral.msg_Role
    (Mistral.convertMessage
       {| Message.Role := RoleTool; Message.Content := "3 findings";
          Message.ToolCallID := "t1"; Message.ToolCalls := [] |}) = "tool"
  ∧ Mistral.msg_Role
      (Mistral.convertMessage
         {| Message.Role := "developer"; Message.Content := "x";
            Message.ToolCallID := "t1"; Message.ToolCalls := [Wire.call_t1] |}) = "".
Proof.
  split.
  - destruct (mistral_message_fields
                {| Message.Role := RoleTool; Message.Content := "3 findings";
                   Message.ToolCallID := "t1"; Message.ToolCalls := [] |})
      as (_ & Htool & _).
    apply Htool. vm_compute. discriminate.
  - destruct (mistral_message_fields
                {| Message.Role := "developer"; Message.Content := "x";
                   Message.ToolCallID := "t1"; Message.ToolCalls := [Wire.call_t1] |})
      as (_ & _ & _ & _ & Hunknown).
    apply Hunknown. reflexivity.
Defined.

(** *** Text *)

Lemma append_nil_r (s : string) : s +:+ "" = s.
Proof.
  induction s as [|a s IH]; [reflexivity|].
  change (String a (s +:+ "") = String a s). f_equal. exact IH.
Qed.

Lemma append_assoc (s t u : string) : (s +:+ t) +:+ u = s +:+ t +:+ u.
Proof.
  induction s as [|a s IH]; [reflexivity|].
  change (String a ((s +:+ t) +:+ u) = String a (s +:+ t +:+ u)). f_equal. exact IH.
Qed.

(** *** Tool declarations *)

Lemma map_inj_eq {A B : Type} (f : A → B) (l k : list A) :
  (∀ x y, f x = f y → x = y) → map f l = map f k → l = k.
Proof.
  intros Hinj. revert k. induction l as [|x l IH]; intros [|y k] H; simpl in H;
    try discriminate; [reflexivity|].
  injection H as Hx Hl. f_equal; [apply Hinj; exact Hx | apply IH; exact Hl].
Qed.

Lemma map_value_inj (p q : gomap) : map_value p = map_value q → p = q.
Proof. destruct p, q; simpl; intros H; congruence. Qed.

Lemma anthropic_convertTool_inj (t u : Tool.t) :
  Anthropic.convertTool t = Anthropic.convertTool u → t = u.
Proof.
  unfold Anthropic.convertTool. intros H.
  assert (Hn := f_equal (λ v, match v with VMap m => m !! "name" | _ => None end) H).
  assert (Hd := f_equal (λ v, match v with VMap m => m !! "description" | _ => None end) H).
  assert (Hp := f_equal (λ v, match v with VMap m => m !! "input_schema" | _ => None end) H).
  clear H. cbv beta iota in Hn, Hd, Hp. simplify_map_eq.
  destruct t, u; simpl in *. f_equal; try congruence.
  apply map_value_inj. congruence.
Qed.

(** X3. No adapter loses information about the declared tools: two tool
    sequences that convert to the same vendor declarations are equal, for the
    Mistral, the OpenAI and the Anthropic shapes. *)
Theorem tool_declarations_lose_nothing :
  ∀ (tools tools' : list Tool.t),
    (Mistral.convertTools tools = Mistral.convertTools tools' → tools = tools')
    ∧ (map OpenAI.convertTool tools = map OpenAI.convertTool tools' → tools = tools')
    ∧ (Anthropic.convertTools tools = Anthropic.convertTools tools' → tools = tools').
Proof.
  intros tools tools'. split; [|split]; apply map_inj_eq.
  - intros [n d p] [n' d' p']. unfold Mistral.convertTool. simpl. congruence.
  - intros [n d p] [n' d' p']. unfold OpenAI.convertTool. simpl. congruence.
  - apply anthropic_convertTool_inj.
Qed.

Lemma tool_declarations_lose_nothing_witness :
  [Wire.queryFindings] = [Wire.queryFindings].
Proof.
  destruct (tool_declarations_lose_nothing [Wire.queryFindings] [Wire.queryFindings])
    as (HM & _ & _).
  apply HM. reflexivity.
Defined.

(** *** When [Chat] returns a response *)

(** X4. [Chat] returns a response only when the call went through: for the
    Mistral and the Anthropic adapters the network delivered the status 200
    and a body that decodes, and the response is the one parsed from it; for
    the OpenAI adapter the SDK returned a completion with a first choice. *)
Theorem chat_response_only_on_200 :
  (∀ net c messages tools resp,
     Mistral.Chat net c messages tools = Ok resp →
     ∃ body r, net (Mistral.httpRequest c messages tools) = Received 200 body
               ∧ Unmarshal Mistral.dec_Response Mistral.zero_Response body = Some r
               ∧ resp = Mistral.parseResponse r)
  ∧ (∀ net c messages tools resp,
     Anthropic.Chat net c messages tools = Ok resp →
     ∃ body r, net (Anthropic.httpRequest c messages tools) = Received 200 body
               ∧ Unmarshal Anthropic.dec_apiResp Anthropic.zero_apiResp body = Some r
               ∧ resp = Anthropic.parseApiResp r)
  ∧ (∀ sdk c messages tools resp,
     OpenAI.Chat sdk c messages tools = Ok resp →
     ∃ r choice rest,
       sdk (OpenAI.client c) (OpenAI.chatParams messages tools) = inr r
       ∧ openai.Choices r = choice :: rest
       ∧ Response.Content resp = openai.msg_Content (openai.Message choice)).
Proof.
  split; [|split].
  - intros net c messages tools resp. unfold Mistral.Chat, Mistral.handleResponse.
    destruct (net _) as [d|s d|s body]; try discriminate.
    destruct (s =? StatusOK) eqn:Hs; simpl.
    + apply Z.eqb_eq in Hs. subst s.
      destruct (Unmarshal Mistral.dec_Response _ body) as [r|] eqn:Hr; [|discriminate].
      intros [= <-]. eauto.
    + destruct (Unmarshal Mistral.dec_Error _ body) as [e|]; [|discriminate].
      destruct (negb _); discriminate.
  - intros net c messages tools resp.
    unfold Anthropic.Chat, Anthropic.handleResponse, Anthropic.parseResponseBody.
    destruct (net _) as [d|s d|s body]; try discriminate.
    destruct (s =? StatusOK) eqn:Hs; simpl; [|discriminate].
    apply Z.eqb_eq in Hs. subst s.
    destruct (Unmarshal Anthropic.dec_apiResp _ body) as [r|] eqn:Hr; [|discriminate].
    intros [= <-]. eauto.
  - intros sdk c messages tools resp. unfold OpenAI.Chat, OpenAI.parseCompletion.
    destruct (sdk _ _) as [e|r]; [discriminate|].
    destruct (openai.Choices r) as [|choice rest] eqn:Hc; [discriminate|].
    intros [= <-]. exists r, choice, rest. repeat split. exact Hc.
Qed.

Lemma chat_response_only_on_200_witness :
  ∃ body r,
    Wire.answering 200 Wire.one_call (Mistral.httpRequest Wire.mistral [Wire.user "hello"] [])
    = Received 200 body
    ∧ Unmarshal Mistral.dec_Response Mistral.zero_Response body = Some r.
Proof.
  destruct chat_response_only_on_200 as (HM & _ & _).
  edestruct (HM (Wire.answering 200 Wire.one_call) Wire.mistral [Wire.user "hello"] [])
    as (body & r & Hnet & Hdec & _).
  - vm_compute. reflexivity.
  - exists body, r. split; assumption.
Defined.

(** *** The content and the usage of an Anthropic answer *)

Lemma anthropic_fold_content (blocks : list Anthropic.contentBlock) (init : Response.t) :
  Response.Content (fold_left Anthropic.parseBlock blocks init)
  = Response.Content init +:+ Cover.texts blocks.
Proof.
  revert init. induction blocks as [|b blocks IH]; intros init; simpl.
  - symmetry. apply append_nil_r.
  - rewrite IH. unfold Anthropic.parseBlock at 1. unfold Cover.is_text.
    destruct (String.eqb (Anthropic.Type_ b) "text"); simpl.
    + rewrite append_assoc. reflexivity.
    + destruct (String.eqb (Anthropic.Type_ b) "tool_use"); reflexivity.
Qed.

Lemma anthropic_fold_usage (blocks : list Anthropic.contentBlock) (init : Response.t) :
  Response.Usage (fold_left Anthropic.parseBlock blocks init) = Response.Usage init.
Proof.
  revert init. induction blocks as [|b blocks IH]; intros init; simpl; [reflexivity|].
  rewrite IH. unfold Anthropic.parseBlock.
  destruct (String.eqb (Anthropic.Type_ b) "text"); [reflexivity|].
  destruct (String.eqb (Anthropic.Type_ b) "tool_use"); reflexivity.
Qed.

(** X5. The content of the response parsed from an Anthropic answer is the
    texts of its [text] blocks, one after the other in order; blocks of any
    other type add nothing to it.  The usage is the one the vendor reports,
    whatever the blocks are, also when there is none. *)
Theorem anthropic_content_and_usage :
  ∀ (r : Anthropic.apiResp),
    Response.Content (Anthropic.parseApiResp r) = Cover.texts (Anthropic.Content r)
    ∧ Response.Usage (Anthropic.parseApiResp r)
      = {| Usage.InputTokens := Anthropic.InputTokens (Anthropic.Usage r);
           Usage.OutputTokens := Anthropic.OutputTokens (Anthropic.Usage r) |}.
Proof.
  intros r. unfold Anthropic.parseApiResp. split.
  - rewrite anthropic_fold_content. reflexivity.
  - rewrite anthropic_fold_usage. reflexivity.
Qed.

(** ** JSON texts: printing and parsing *)


(** *** Strings *)






(** *** Scanning *)








(** *** Number literals are words *)










(** *** The scanner on a printed text *)




(** *** The parser on the tokens of a tree *)







(** ** Go values and JSON texts *)









(** *** Parsed texts are well formed *)















(** ** Round trips of tool calls *)


